(** * Nova Pro visual inspection notebook: a shallow embedding

    The notebook [Nova_Pro_Visual_Inspection.ipynb] is glue code: it loads
    two images with Pillow, builds a request for Amazon Bedrock, calls the
    endpoint, decodes the JSON the model embeds in its answer and draws the
    reported boxes with matplotlib.

    The embedding follows the cells of the notebook.
    - Python objects obtained from [json.loads] (and the request dictionary)
      are values of [pyval]; a [dict] is an association list in insertion
      order, as CPython keeps it.
    - A Python [str] is a Rocq [string] holding its UTF-8 encoding.
    - A Python [float] is a binary64 primitive float, an [int] is a [Z].
    - Exceptions are explicit: every notebook function lives in a state and
      exception monad [M] whose state holds the notebook's global variables,
      everything shown to the user so far and the remote calls made so far.
    - Pillow, the JSON codec, [repr] of floats and containers and the
      Bedrock endpoint are outside the notebook: they are the fields of the
      class [Libraries], over which every definition is parameterised. *)

From Stdlib Require Import ZArith String Ascii List Bool Lia.
From Stdlib Require Import DecimalString.
From Stdlib Require Import PrimFloat SpecFloat FloatOps.
Import ListNotations.

Set Warnings "-register-all,-inexact-float".

Open Scope list_scope.
Open Scope string_scope.
Open Scope Z_scope.

(** ** Python values *)

Inductive pyval : Type :=
| PNone
| PBool (b : bool)
| PInt (z : Z)
| PFloat (f : float)
| PStr (s : string)
| PList (l : list pyval)
| PDict (d : list (string * pyval)).

Definition bytes := list Byte.byte.

(** Exceptions deriving from [Exception]: their class and their [str()]. *)
Inductive exn_class : Type :=
| KeyError | IndexError | TypeError | AttributeError | OverflowError
| NameError | JSONDecodeError
| OtherException (name : string).

Record exn : Type := Exn { exn_class_of : exn_class; exn_str : string }.

Inductive outcome (A : Type) : Type :=
| Ok (a : A)
| Raise (e : exn).
Arguments Ok {A} a.
Arguments Raise {A} e.

Definition obind {A B} (o : outcome A) (k : A -> outcome B) : outcome B :=
  match o with
  | Ok a => k a
  | Raise e => Raise e
  end.

(** ** Strings *)

Definition nl : string := String (ascii_of_nat 10) EmptyString.
Definition dquote : string := String (ascii_of_nat 34) EmptyString.
Definition squote : string := "'".

(** [sub in s] *)
Fixpoint contains (sub s : string) : bool :=
  prefix sub s ||
  match s with
  | EmptyString => false
  | String _ s' => contains sub s'
  end.

(** [s.replace(old, "")] for a non-empty [old]: occurrences are removed from
    left to right without overlap; [skip] counts the characters of the
    occurrence being dropped. *)
Fixpoint remove_all_aux (old : string) (skip : nat) (s : string) : string :=
  match s with
  | EmptyString => EmptyString
  | String c s' =>
      match skip with
      | S k => remove_all_aux old k s'
      | O =>
          if prefix old s
          then remove_all_aux old (Nat.pred (String.length old)) s'
          else String c (remove_all_aux old O s')
      end
  end.

Definition remove_all (old s : string) : string := remove_all_aux old O s.

Definition str_of_codes (l : list Z) : string :=
  string_of_list_ascii (map (fun k => ascii_of_N (Z.to_N k)) l).

(** The characters for which [str.isspace()] holds, in UTF-8:
    U+0009..U+000D, U+001C..U+0020, U+0085, U+00A0, U+1680, U+2000..U+200A,
    U+2028, U+2029, U+202F, U+205F, U+3000. *)
Definition whitespace : list string :=
  map str_of_codes
    ([[9]; [10]; [11]; [12]; [13]; [28]; [29]; [30]; [31]; [32];
      [194; 133]; [194; 160]; [225; 154; 128]]
     ++ map (fun k => [226; 128; k])
          [128; 129; 130; 131; 132; 133; 134; 135; 136; 137; 138; 168; 169; 175]
     ++ [[226; 129; 159]; [227; 128; 128]])%list.

Definition rev_string (s : string) : string :=
  string_of_list_ascii (rev (list_ascii_of_string s)).

Fixpoint drop (n : nat) (s : string) : string :=
  match n, s with
  | S k, String _ s' => drop k s'
  | _, _ => s
  end.

Definition leading (ws : list string) (s : string) : option string :=
  find (fun w => prefix w s) ws.

Fixpoint lstrip_aux (ws : list string) (fuel : nat) (s : string) : string :=
  match fuel with
  | O => s
  | S k =>
      match leading ws s with
      | Some w => lstrip_aux ws k (drop (String.length w) s)
      | None => s
      end
  end.

Definition lstrip_with (ws : list string) (s : string) : string :=
  lstrip_aux ws (String.length s) s.

(** [s.strip()] *)
Definition strip (s : string) : string :=
  rev_string (lstrip_with (map rev_string whitespace)
                (rev_string (lstrip_with whitespace s))).

(** ** Numbers *)

(** The binary64 value nearest to an integer (ties to even). *)
Definition Z_to_float (z : Z) : float :=
  SF2Prim (binary_normalize prec emax z 0 false).

(** [float(z)] as CPython converts an [int] operand: an integer that rounds
    beyond the largest finite binary64, that is, one of absolute value at
    least [float_limit], raises [OverflowError]. *)
Definition float_limit : Z := 2 ^ 1024 - 2 ^ 970.

Definition float_of_int (z : Z) : outcome float :=
  if Z.abs z <? float_limit
  then Ok (Z_to_float z)
  else Raise (Exn OverflowError "int too large to convert to float").

(** [a / b] on two [int]s.  Both operands are image dimensions or the
    constant 1000, far below [2 ^ 53], so both conversions are exact and the
    quotient is the correctly rounded one Python computes. *)
Definition int_truediv (a b : Z) : float := (Z_to_float a / Z_to_float b)%float.

Definition str_of_Z (z : Z) : string := NilZero.string_of_int (Z.to_int z).

(** ** Operations of the interpreter on Python values *)

Definition type_name (v : pyval) : string :=
  match v with
  | PNone => "NoneType"
  | PBool _ => "bool"
  | PInt _ => "int"
  | PFloat _ => "float"
  | PStr _ => "str"
  | PList _ => "list"
  | PDict _ => "dict"
  end.

Fixpoint lookup (k : string) (d : list (string * pyval)) : option pyval :=
  match d with
  | [] => None
  | (k', v) :: d' => if String.eqb k k' then Some v else lookup k d'
  end.

(** [repr] of a key written as a literal in the notebook (no quote, no
    backslash, printable ASCII). *)
Definition repr_key (k : string) : string := squote ++ k ++ squote.

Definition not_subscriptable (v : pyval) : exn :=
  Exn TypeError (squote ++ type_name v ++ "' object is not subscriptable").

Definition no_attribute (v : pyval) (attr : string) : exn :=
  Exn AttributeError
    (squote ++ type_name v ++ "' object has no attribute '" ++ attr ++ squote).

(** [v[k]] for a string literal [k] *)
Definition py_getitem (v : pyval) (k : string) : outcome pyval :=
  match v with
  | PDict d =>
      match lookup k d with
      | Some x => Ok x
      | None => Raise (Exn KeyError (repr_key k))
      end
  | PList _ => Raise (Exn TypeError "list indices must be integers or slices, not str")
  | PStr _ => Raise (Exn TypeError "string indices must be integers")
  | _ => Raise (not_subscriptable v)
  end.

(** The code points of a string, each as a one-character [str]: a byte in
    128..191 continues the code point before it. *)
Fixpoint codepoints_aux (cur : string) (s : string) : list string :=
  match s with
  | EmptyString => [rev_string cur]
  | String c s' =>
      let n := N_of_ascii c in
      if ((128 <=? n) && (n <=? 191))%N
      then codepoints_aux (String c cur) s'
      else rev_string cur :: codepoints_aux (String c EmptyString) s'
  end.

Definition codepoints (s : string) : list string :=
  match s with
  | EmptyString => []
  | String c s' => codepoints_aux (String c EmptyString) s'
  end.

(** [v[0]] *)
Definition py_getitem0 (v : pyval) : outcome pyval :=
  match v with
  | PList (x :: _) => Ok x
  | PList [] => Raise (Exn IndexError "list index out of range")
  | PStr s =>
      match codepoints s with
      | c :: _ => Ok (PStr c)
      | [] => Raise (Exn IndexError "string index out of range")
      end
  | PDict _ => Raise (Exn KeyError "0")
  | _ => Raise (not_subscriptable v)
  end.

(** [v.get(k)] *)
Definition py_get (v : pyval) (k : string) : outcome pyval :=
  match v with
  | PDict d =>
      match lookup k d with
      | Some x => Ok x
      | None => Ok PNone
      end
  | _ => Raise (no_attribute v "get")
  end.

(** [v.strip()] *)
Definition py_strip (v : pyval) : outcome string :=
  match v with
  | PStr s => Ok (strip s)
  | _ => Raise (no_attribute v "strip")
  end.

(** Truth value of an object, as [if v:] and [not v] test it. *)
Definition py_truthy (v : pyval) : bool :=
  match v with
  | PNone => false
  | PBool b => b
  | PInt z => negb (z =? 0)
  | PFloat f => negb (f =? 0)%float
  | PStr s => negb (String.eqb s "")
  | PList l => match l with [] => false | _ => true end
  | PDict d => match d with [] => false | _ => true end
  end.

(** The items a [for] loop over [v] visits. *)
Definition py_iter (v : pyval) : outcome (list pyval) :=
  match v with
  | PList l => Ok l
  | PStr s => Ok (map PStr (codepoints s))
  | PDict d => Ok (map (fun kv => PStr (fst kv)) d)
  | _ => Raise (Exn TypeError (squote ++ type_name v ++ "' object is not iterable"))
  end.

(** [v == s] for a string literal [s] *)
Definition py_eq_str (v : pyval) (s : string) : bool :=
  match v with
  | PStr t => String.eqb t s
  | _ => false
  end.

(** [v * s] for a float [s] *)
Definition py_mul_float (v : pyval) (s : float) : outcome float :=
  match v with
  | PFloat f => Ok (f * s)%float
  | PInt z => obind (float_of_int z) (fun f => Ok (f * s)%float)
  | PBool b => Ok (Z_to_float (if b then 1 else 0) * s)%float
  | PStr _ | PList _ =>
      Raise (Exn TypeError "can't multiply sequence by non-int of type 'float'")
  | _ =>
      Raise (Exn TypeError
               ("unsupported operand type(s) for *: '" ++ type_name v ++ "' and 'float'"))
  end.

(** ** Images, figures and what the user sees *)

(** A Pillow image: mode, size [(width, height)] and pixel buffer. *)
Record image : Type := Image
  { im_mode : string; im_size : Z * Z; im_pixels : bytes }.

(** [plt.Rectangle(xy, width, height, linewidth=2, edgecolor=..., facecolor='none')] *)
Record rectangle : Type := Rectangle
  { rect_xy : float * float;
    rect_width : float;
    rect_height : float;
    rect_linewidth : Z;
    rect_edgecolor : string;
    rect_facecolor : string }.

(** [ax.text(x, y, s, color=..., fontsize=12, weight='bold')] *)
Record label : Type := Label
  { label_x : float;
    label_y : float;
    label_s : string;
    label_color : string;
    label_fontsize : Z;
    label_weight : string }.

Inductive widget : Type := qc_display | ref_display.

Inductive event : Type :=
| Print (s : string)
| Display (im : image)
| ClearOutput (w : widget)
| WidgetDisplay (w : widget) (im : image)
| WidgetTraceback (w : widget) (e : exn)
| Subplots (figsize : Z * Z)
| Imshow (im : image)
| AddPatch (r : rectangle)
| AxText (t : label)
| AxisOff
| Show.

(** ** The libraries and the endpoint *)

Class Libraries : Type :=
  { (** [Image.open(path)] *)
    Image_open_file : string -> outcome image;
    (** [Image.open(io.BytesIO(data))] *)
    Image_open_bytes : bytes -> outcome image;
    (** [img.thumbnail(max_size, Image.Resampling.LANCZOS)], the image afterwards *)
    Image_thumbnail : image -> Z * Z -> outcome image;
    (** [img.resize(size)] *)
    Image_resize : image -> Z * Z -> outcome image;
    (** [img.save(output, format="PNG")], the bytes written *)
    Image_save_png : image -> outcome bytes;
    (** [base64.b64decode(s)] *)
    b64decode : string -> outcome bytes;
    (** [json.loads(s)] *)
    json_loads : string -> outcome pyval;
    (** [json.dumps(v)] and [json.dumps(v, indent=n)] *)
    json_dumps : option Z -> pyval -> string;
    (** [str(v)] for a float, a list or a dict *)
    py_repr : pyval -> string;
    (** [bedrock_runtime.invoke_model(modelId=.., body=..)]: the calls made
        before, the model identifier and the body sent give the content of
        the response body or the exception raised. *)
    invoke_model : list (string * string) -> string -> string -> outcome string }.

(** ** State of the notebook *)

Record globals : Type := Globals
  { qc_image_path : string;
    ref_image_path : string;
    default_system_prompt : string;
    instruction : string;
    base64_image : option string;
    image_data : option bytes;
    img : option image;
    base64_reference_image : option string;
    reference_image_data : option bytes;
    ref_img : option image }.

Record state : Type := State
  { vars : globals;
    shown : list event;
    calls : list (string * string) }.

Definition MODEL_ID : string := "amazon.nova-pro-v1:0".

(** ** The monad *)

Definition M (A : Type) : Type := state -> outcome A * state.

Definition ret {A} (a : A) : M A := fun st => (Ok a, st).

Definition bind {A B} (m : M A) (k : A -> M B) : M B :=
  fun st =>
    match m st with
    | (Ok a, st') => k a st'
    | (Raise e, st') => (Raise e, st')
    end.

Definition raise {A} (e : exn) : M A := fun st => (Raise e, st).

Definition lift {A} (o : outcome A) : M A := fun st => (o, st).

Declare Scope monad_scope.
Delimit Scope monad_scope with monad.
Notation "x <- c1 ;; c2" := (bind c1 (fun x => c2))
  (at level 61, c1 at next level, right associativity) : monad_scope.
Notation "' pat <- c1 ;; c2" := (bind c1 (fun x => match x with pat => c2 end))
  (at level 61, pat pattern, c1 at next level, right associativity) : monad_scope.
Notation "c1 ;; c2" := (bind c1 (fun _ => c2))
  (at level 61, right associativity) : monad_scope.
Open Scope monad_scope.

Definition emit (e : event) : M unit :=
  fun st => (Ok tt, State (vars st) (shown st ++ [e]) (calls st)).

Definition print (s : string) : M unit := emit (Print s).

Definition display (im : image) : M unit := emit (Display im).

(** [try: body except classes as e: handler(e)] *)
Definition try_except {A} (body : M A) (caught : exn -> bool) (handler : exn -> M A) : M A :=
  fun st =>
    match body st with
    | (Raise e, st') => if caught e then handler e st' else (Raise e, st')
    | r => r
    end.

(** Reading a global variable that may not have been assigned yet. *)
Definition read_global {A} (name : string) (field : globals -> option A) : M A :=
  fun st =>
    match field (vars st) with
    | Some a => (Ok a, st)
    | None => (Raise (Exn NameError ("name '" ++ name ++ "' is not defined")), st)
    end.

Definition get_vars : M globals := fun st => (Ok (vars st), st).

Definition set_vars (g : globals) : M unit :=
  fun st => (Ok tt, State g (shown st) (calls st)).

(** [with w: body] for an [ipywidgets.Output]: the output of the body goes
    to the widget.  Inside IPython the [__exit__] of the widget shows the
    traceback of an exception raised in the body and returns [True], so
    that the exception is not propagated. *)
Definition with_output (w : widget) (body : M unit) : M unit :=
  fun st =>
    match body st with
    | (Raise e, st') => emit (WidgetTraceback w e) st'
    | r => r
    end.

(** [for x in l: body(x)] *)
Fixpoint for_each {A} (l : list A) (body : A -> M unit) : M unit :=
  match l with
  | [] => ret tt
  | x :: l' => body x ;; for_each l' body
  end.

(** ** Base64 (RFC 4648), as [base64.b64encode(data).decode()] *)

Definition b64_alphabet : string :=
  "ABCDEFGHIJKLMNOPQRSTUVWXYZabcdefghijklmnopqrstuvwxyz0123456789+/".

Definition b64_char (i : Z) : string :=
  match String.get (Z.to_nat i) b64_alphabet with
  | Some c => String c EmptyString
  | None => EmptyString
  end.

Definition byte_val (b : Byte.byte) : Z := Z.of_N (Byte.to_N b).

Fixpoint b64encode (data : bytes) : string :=
  match data with
  | [] => EmptyString
  | [a] =>
      let n := Z.shiftl (byte_val a) 16 in
      b64_char (Z.shiftr n 18) ++ b64_char (Z.land (Z.shiftr n 12) 63) ++ "=="
  | [a; b] =>
      let n := Z.lor (Z.shiftl (byte_val a) 16) (Z.shiftl (byte_val b) 8) in
      b64_char (Z.shiftr n 18) ++ b64_char (Z.land (Z.shiftr n 12) 63)
        ++ b64_char (Z.land (Z.shiftr n 6) 63) ++ "="
  | a :: b :: c :: rest =>
      let n := Z.lor (Z.lor (Z.shiftl (byte_val a) 16) (Z.shiftl (byte_val b) 8))
                 (byte_val c) in
      b64_char (Z.shiftr n 18) ++ b64_char (Z.land (Z.shiftr n 12) 63)
        ++ b64_char (Z.land (Z.shiftr n 6) 63) ++ b64_char (Z.land n 63)
        ++ b64encode rest
  end.

Definition bytes_of_string (s : string) : bytes := list_byte_of_string s.

(** ** The notebook *)

Section Notebook.

Context {L : Libraries}.

(** [str(v)], as an f-string formats a field.  An [int] decoded by
    [json.loads] is within the interpreter's limit on the digits of a
    conversion, so that its [str] is defined. *)
Definition py_str (v : pyval) : string :=
  match v with
  | PStr s => s
  | PInt z => str_of_Z z
  | PBool true => "True"
  | PBool false => "False"
  | PNone => "None"
  | _ => py_repr v
  end.

(** The remote call, recorded in [calls]. *)
Definition remote_invoke_model (model_id body : string) : M string :=
  fun st =>
    (invoke_model (calls st) model_id body,
     State (vars st) (shown st) (calls st ++ [(model_id, body)])).

(** *** Loading the images *)

Definition default_max_size : Z * Z := (1024, 1024).

Definition get_png_base64_from_file (filepath : string) (max_size : Z * Z)
  : M (string * bytes * image) :=
  img <- lift (Image_open_file filepath) ;;
  img <- lift (Image_thumbnail img max_size) ;;
  png_bytes <- lift (Image_save_png img) ;;
  let base64_str := b64encode png_bytes in
  ret (base64_str, png_bytes, img).

Definition assign_qc (g : globals) (b64 : string) (raw : bytes) (preview : image) : globals :=
  Globals (qc_image_path g) (ref_image_path g) (default_system_prompt g) (instruction g)
    (Some b64) (Some raw) (Some preview)
    (base64_reference_image g) (reference_image_data g) (ref_img g).

Definition assign_ref (g : globals) (b64 : string) (raw : bytes) (preview : image) : globals :=
  Globals (qc_image_path g) (ref_image_path g) (default_system_prompt g) (instruction g)
    (base64_image g) (image_data g) (img g)
    (Some b64) (Some raw) (Some preview).

Definition load_qc_image : M unit :=
  g <- get_vars ;;
  '(b64, raw, preview) <- get_png_base64_from_file (qc_image_path g) default_max_size ;;
  set_vars (assign_qc g b64 raw preview) ;;
  with_output qc_display
    (emit (ClearOutput qc_display) ;;
     img <- read_global "img" img ;;
     let '(w, h) := im_size img in
     img_rez <- lift (Image_resize img (w / 3, h / 3)) ;;
     emit (WidgetDisplay qc_display img_rez)).

Definition load_ref_image : M unit :=
  g <- get_vars ;;
  '(b64, raw, preview) <- get_png_base64_from_file (ref_image_path g) default_max_size ;;
  set_vars (assign_ref g b64 raw preview) ;;
  with_output ref_display
    (emit (ClearOutput ref_display) ;;
     ref_img <- read_global "ref_img" ref_img ;;
     let '(w, h) := im_size ref_img in
     ref_img_rez <- lift (Image_resize ref_img (w / 3, h / 3)) ;;
     emit (WidgetDisplay ref_display ref_img_rez)).

(** *** Request, call and parsing *)

Definition build_qc_request (image_data : bytes) (instruction default_system_prompt : string)
    (reference_image_data : option bytes) : pyval :=
  let system_list := PList [PDict [("text", PStr default_system_prompt)]] in
  let message_list :=
    [PDict
       [("role", PStr "user");
        ("content",
          PList
            [PDict [("image",
                      PDict [("format", PStr "png");
                             ("source", PDict [("bytes", PStr (b64encode image_data))])])];
             PDict [("text", PStr instruction)]])]] in
  let message_list :=
    match reference_image_data with
    | Some ((_ :: _) as reference_image_data) =>
        app message_list
        [PDict
           [("role", PStr "user");
            ("content",
              PList
                [PDict [("text",
                          PStr "This is the reference image. Do not include bounding boxes for this image.")];
                 PDict [("image",
                          PDict [("format", PStr "png");
                                 ("source",
                                   PDict [("bytes", PStr (b64encode reference_image_data))])])]])]]
    | _ => message_list
    end in
  PDict
    [("schemaVersion", PStr "messages-v1");
     ("messages", PList message_list);
     ("system", system_list);
     ("inferenceConfig",
       PDict
         [("max_new_tokens", PInt 2500);
          ("top_p", PFloat 0.1);
          ("top_k", PInt 20);
          ("temperature", PFloat 0.1)])].

Definition invoke_qc_model (native_request : pyval) (model_id : string) : M pyval :=
  try_except
    (body <- remote_invoke_model model_id (json_dumps None native_request) ;;
     model_response <- lift (json_loads body) ;;
     print "✅ Inference completed successfully." ;;
     ret model_response)
    (fun _ => true)
    (fun e =>
       print ("❌ Model invocation error: " ++ exn_str e) ;;
       ret PNone).

Definition parse_qc_response (model_response : pyval) : M pyval :=
  if negb (py_truthy model_response) then ret PNone
  else
    try_except
      (output <- lift (py_getitem model_response "output") ;;
       message <- lift (py_getitem output "message") ;;
       content <- lift (py_getitem message "content") ;;
       block <- lift (py_getitem0 content) ;;
       raw_text <- lift (py_getitem block "text") ;;
       stripped <- lift (py_strip raw_text) ;;
       let clean_json := remove_all "```" (remove_all "```json" stripped) in
       parsed <- lift (json_loads clean_json) ;;
       print "✅ Parsed QC Output:" ;;
       print (json_dumps (Some 2) parsed) ;;
       ret parsed)
      (fun e =>
         match exn_class_of e with
         | KeyError | JSONDecodeError => true
         | _ => false
         end)
      (fun e =>
         print ("❌ Response parsing failed: " ++ exn_str e) ;;
         ret PNone).

(** *** Rendering *)

(** [box[k] * scale] *)
Definition scaled (box : pyval) (k : string) (scale : float) : outcome float :=
  obind (py_getitem box k) (fun v => py_mul_float v scale).

(** The body of the loop of [draw_bounding_boxes]. *)
Definition draw_box (scale_x scale_y : float) (obj : pyval) : M unit :=
  box <- lift (py_getitem obj "bounding_box") ;;
  x_min <- lift (scaled box "x_min" scale_x) ;;
  y_min <- lift (scaled box "y_min" scale_y) ;;
  x_max <- lift (scaled box "x_max" scale_x) ;;
  y_max <- lift (scaled box "y_max" scale_y) ;;
  name <- lift (py_getitem obj "name") ;;
  qc <- lift (py_getitem obj "qc") ;;
  let label := py_str name ++ " (" ++ py_str qc ++ ")" in
  qc <- lift (py_getitem obj "qc") ;;
  let color := if py_eq_str qc "OK" then "green" else "red" in
  let rect :=
    Rectangle (x_min, y_min) (x_max - x_min)%float (y_max - y_min)%float 2 color "none" in
  emit (AddPatch rect) ;;
  emit (AxText (Label x_min (y_min - 10)%float label color 12 "bold")).

Definition draw_bounding_boxes (base64_img : string) (objects : pyval) : M unit :=
  data <- lift (b64decode base64_img) ;;
  img <- lift (Image_open_bytes data) ;;
  let '(img_width, img_height) := im_size img in
  let model_width := 1000 in
  let model_height := 1000 in
  let scale_x := int_truediv img_width model_width in
  let scale_y := int_truediv img_height model_height in
  emit (Subplots (10, 10)) ;;
  emit (Imshow img) ;;
  objs <- lift (py_iter objects) ;;
  for_each objs (draw_box scale_x scale_y) ;;
  emit AxisOff ;;
  emit Show.

(** The text one defect adds to the report. *)
Definition defect_lines (obj : pyval) : outcome string :=
  obind (py_getitem obj "bounding_box") (fun box =>
  obind (py_getitem obj "name") (fun name =>
  obind (py_getitem obj "color") (fun color =>
  obind (py_getitem obj "qc") (fun qc =>
  obind (py_getitem obj "reason") (fun reason =>
  obind (py_getitem box "x_min") (fun x_min =>
  obind (py_getitem box "y_min") (fun y_min =>
  obind (py_getitem box "x_max") (fun x_max =>
  obind (py_getitem box "y_max") (fun y_max =>
  Ok (nl ++ "- " ++ py_str name ++ " (" ++ py_str color ++ "): " ++ py_str qc
        ++ " — reason: " ++ py_str reason ++ nl
        ++ "  Bounding Box: x_min=" ++ py_str x_min ++ ", y_min=" ++ py_str y_min
        ++ ", x_max=" ++ py_str x_max ++ ", y_max=" ++ py_str y_max ++ nl)))))))))).

(** [for obj in objs: report_text += ...] *)
Fixpoint add_defects (report_text : string) (objs : list pyval) : outcome string :=
  match objs with
  | [] => Ok report_text
  | obj :: objs' =>
      obind (defect_lines obj) (fun lines => add_defects (report_text ++ lines) objs')
  end.

(** The first block of [display_qc_report]: the reference image, when one
    is given. *)
Definition display_reference (base64_reference_image : option string) : M unit :=
  match base64_reference_image with
  | Some s =>
      if negb (String.eqb s "") then
        data <- lift (b64decode s) ;;
        ref_img <- lift (Image_open_bytes data) ;;
        let '(w, h) := im_size ref_img in
        resized_ref <- lift (Image_resize ref_img (w / 2, h / 2)) ;;
        print "🧾 Reference Image:" ;;
        display resized_ref
      else ret tt
  | None => ret tt
  end.

Definition display_qc_report (parsed : pyval) (base64_image : string)
    (base64_reference_image : option string) : M unit :=
  display_reference base64_reference_image ;;
  objects <- lift (py_get parsed "objects") ;;
  report_text <-
    (if py_truthy objects then
       print "🧾 QC Image with Defects:" ;;
       objects <- lift (py_getitem parsed "objects") ;;
       draw_bounding_boxes base64_image objects ;;
       objects <- lift (py_getitem parsed "objects") ;;
       first <- lift (py_getitem0 objects) ;;
       qc <- lift (py_getitem first "qc") ;;
       text <- lift (py_getitem parsed "text") ;;
       let report_text :=
         "QC: " ++ py_str qc ++ nl ++ nl ++ "Description:" ++ nl ++ py_str text
           ++ nl ++ nl ++ "Defects:" in
       objects <- lift (py_getitem parsed "objects") ;;
       objs <- lift (py_iter objects) ;;
       lift (add_defects report_text objs)
     else
       data <- lift (b64decode base64_image) ;;
       qc_img <- lift (Image_open_bytes data) ;;
       let '(w, h) := im_size qc_img in
       resized_qc <- lift (Image_resize qc_img (w / 2, h / 2)) ;;
       print "🧾 QC Image:" ;;
       display resized_qc ;;
       text <- lift (py_getitem parsed "text") ;;
       ret ("QC: OK" ++ nl ++ nl ++ "Description:" ++ nl ++ py_str text ++ nl ++ nl
              ++ "No defects were detected." ++ nl)) ;;
  print (nl ++ "🧾 Quality Control Report:") ;;
  print report_text.

(** *** The whole pipeline *)

Definition run_qc_full_pipeline (qc_image_path ref_image_path : string) : M unit :=
  load_qc_image ;;
  load_ref_image ;;
  image_data <- read_global "image_data" image_data ;;
  g <- get_vars ;;
  reference_image_data <- read_global "reference_image_data" reference_image_data ;;
  let native_request :=
    build_qc_request image_data (instruction g) (default_system_prompt g)
      (Some reference_image_data) in
  model_response <- invoke_qc_model native_request MODEL_ID ;;
  parsed_output <- parse_qc_response model_response ;;
  base64_image <- read_global "base64_image" base64_image ;;
  base64_reference_image <- read_global "base64_reference_image" base64_reference_image ;;
  display_qc_report parsed_output base64_image (Some base64_reference_image).

(** The cell that confirms that the model is enabled in the account.  It
    passes [contentType] and [accept] explicitly, with the values the
    endpoint uses by default. *)
Definition check_model_enabled : M unit :=
  try_except
    (_ <- remote_invoke_model MODEL_ID
            (json_dumps None
               (PDict [("messages",
                         PList [PDict [("role", PStr "user");
                                       ("content", PList [PDict [("text", PStr "Hello")]])]])])) ;;
     print ("✅ Model '" ++ MODEL_ID ++ "' is activated and available."))
    (fun _ => true)
    (fun e =>
       if contains "AccessDeniedException" (exn_str e) || contains "is not enabled" (exn_str e)
       then
         print ("❌ Model '" ++ MODEL_ID ++ "' is not activated.") ;;
         print "🔗 Activate it here: https://console.aws.amazon.com/bedrock/home?modelaccess#/modelaccess"
       else print ("❌ Error: " ++ exn_str e)).

End Notebook.

(** ** The data model of the answer

    The instruction prompt of the notebook asks the model for a JSON object
    with the description in [text] and the defects in [objects], each with
    [name], [color], [qc], [reason] and a [bounding_box] of four numbers.
    [report_of] reads a Python object as such a report; the order of the
    keys and further keys do not matter.  A coordinate is a JSON number
    that Python can multiply by a float. *)

Inductive number : Type :=
| NInt (z : Z)
| NFloat (f : float).

Record BoundingBox : Type := Box
  { x_min : number; y_min : number; x_max : number; y_max : number }.

Record Defect : Type := MkDefect
  { name : string;
    color : string;
    qc : string;
    reason : string;
    bounding_box : BoundingBox }.

Record DefectReport : Type := MkReport
  { text : string;
    objects : list Defect }.

Definition number_val (n : number) : pyval :=
  match n with
  | NInt z => PInt z
  | NFloat f => PFloat f
  end.

Definition number_float (n : number) : float :=
  match n with
  | NInt z => Z_to_float z
  | NFloat f => f
  end.

Definition field (v : pyval) (k : string) : option pyval :=
  match v with
  | PDict d => lookup k d
  | _ => None
  end.

Definition str_field (v : pyval) (k : string) : option string :=
  match field v k with
  | Some (PStr s) => Some s
  | _ => None
  end.

Definition num_field (v : pyval) (k : string) : option number :=
  match field v k with
  | Some (PInt z) => if Z.abs z <? float_limit then Some (NInt z) else None
  | Some (PFloat f) => Some (NFloat f)
  | _ => None
  end.

Definition box_of (v : pyval) : option BoundingBox :=
  match num_field v "x_min", num_field v "y_min", num_field v "x_max", num_field v "y_max" with
  | Some a, Some b, Some c, Some d => Some (Box a b c d)
  | _, _, _, _ => None
  end.

Definition defect_of (v : pyval) : option Defect :=
  match str_field v "name", str_field v "color", str_field v "qc", str_field v "reason",
        field v "bounding_box" with
  | Some n, Some c, Some q, Some r, Some b =>
      match box_of b with
      | Some bb => Some (MkDefect n c q r bb)
      | None => None
      end
  | _, _, _, _, _ => None
  end.

Fixpoint defects_of (l : list pyval) : option (list Defect) :=
  match l with
  | [] => Some []
  | v :: l' =>
      match defect_of v, defects_of l' with
      | Some d, Some ds => Some (d :: ds)
      | _, _ => None
      end
  end.

Definition report_of (v : pyval) : option DefectReport :=
  match str_field v "text", field v "objects" with
  | Some t, Some (PList l) =>
      match defects_of l with
      | Some ds => Some (MkReport t ds)
      | None => None
      end
  | _, _ => None
  end.

(** ** What the renderer is expected to show *)

Definition qc_color (q : string) : string :=
  if String.eqb q "OK" then "green" else "red".

(** The rectangle and the label of one defect on an image of the given scales. *)
Definition defect_rectangle (scale_x scale_y : float) (d : Defect) : rectangle :=
  let b := bounding_box d in
  let x0 := (number_float (x_min b) * scale_x)%float in
  let y0 := (number_float (y_min b) * scale_y)%float in
  let x1 := (number_float (x_max b) * scale_x)%float in
  let y1 := (number_float (y_max b) * scale_y)%float in
  Rectangle (x0, y0) (x1 - x0)%float (y1 - y0)%float 2 (qc_color (qc d)) "none".

Definition defect_label (scale_x scale_y : float) (d : Defect) : label :=
  let b := bounding_box d in
  Label (number_float (x_min b) * scale_x)%float
        (number_float (y_min b) * scale_y - 10)%float
        (name d ++ " (" ++ qc d ++ ")") (qc_color (qc d)) 12 "bold".

Definition defect_artists (scale_x scale_y : float) (d : Defect) : list event :=
  [AddPatch (defect_rectangle scale_x scale_y d); AxText (defect_label scale_x scale_y d)].

(** The rectangles among the things shown. *)
Fixpoint patches (evs : list event) : list rectangle :=
  match evs with
  | [] => []
  | AddPatch r :: evs' => r :: patches evs'
  | _ :: evs' => patches evs'
  end.

(** The text block of a response:
    [model_response["output"]["message"]["content"][0]["text"]]. *)
Definition response_text (model_response : pyval) : outcome pyval :=
  obind (py_getitem model_response "output") (fun output =>
  obind (py_getitem output "message") (fun message =>
  obind (py_getitem message "content") (fun content =>
  obind (py_getitem0 content) (fun block =>
  py_getitem block "text")))).

(** The text handed to [json.loads]. *)
Definition clean_json (raw_text : string) : string :=
  remove_all "```" (remove_all "```json" (strip raw_text)).

(** The state after more things have been shown. *)
Definition show (st : state) (evs : list event) : state :=
  State (vars st) (shown st ++ evs) (calls st).

(** The scales [draw_bounding_boxes] computes for an image. *)
Definition scale_x (im : image) : float := int_truediv (fst (im_size im)) 1000.
Definition scale_y (im : image) : float := int_truediv (snd (im_size im)) 1000.

Section Expected.

Context {L : Libraries}.

Definition number_str (n : number) : string := py_str (number_val n).

(** The lines of the report for one defect. *)
Definition defect_text (d : Defect) : string :=
  let b := bounding_box d in
  nl ++ "- " ++ name d ++ " (" ++ color d ++ "): " ++ qc d
     ++ " — reason: " ++ reason d ++ nl
     ++ "  Bounding Box: x_min=" ++ number_str (x_min b) ++ ", y_min=" ++ number_str (y_min b)
     ++ ", x_max=" ++ number_str (x_max b) ++ ", y_max=" ++ number_str (y_max b) ++ nl.

(** The text of the report when defects are listed. *)
Definition defects_report (first_qc description : string) (ds : list Defect) : string :=
  "QC: " ++ first_qc ++ nl ++ nl ++ "Description:" ++ nl ++ description ++ nl ++ nl
    ++ "Defects:" ++ String.concat "" (map defect_text ds).

(** The text of the report when no defect is listed. *)
Definition no_defects_report (description : string) : string :=
  "QC: OK" ++ nl ++ nl ++ "Description:" ++ nl ++ description ++ nl ++ nl
    ++ "No defects were detected." ++ nl.

(** The image a base64 string holds. *)
Definition open_base64 (s : string) : outcome image :=
  obind (b64decode s) Image_open_bytes.

(** The image at half its size. *)
Definition half_size (im : image) : outcome image :=
  let '(w, h) := im_size im in Image_resize im (w / 2, h / 2).

(** What [display_qc_report] shows of the reference image. *)
Definition reference_preview (ref : option string) : outcome (list event) :=
  match ref with
  | Some s =>
      if negb (String.eqb s "") then
        obind (open_base64 s) (fun im =>
        obind (half_size im) (fun resized =>
        Ok [Print "🧾 Reference Image:"; Display resized]))
      else Ok []
  | None => Ok []
  end.

(** [run_qc_full_pipeline] up to the answer of the model. *)
Definition pipeline_request : M pyval :=
  load_qc_image ;;
  load_ref_image ;;
  image_data <- read_global "image_data" image_data ;;
  g <- get_vars ;;
  reference_image_data <- read_global "reference_image_data" reference_image_data ;;
  invoke_qc_model
    (build_qc_request image_data (instruction g) (default_system_prompt g)
       (Some reference_image_data))
    MODEL_ID.

(** [run_qc_full_pipeline] after parsing. *)
Definition pipeline_report (parsed_output : pyval) : M unit :=
  base64_image <- read_global "base64_image" base64_image ;;
  base64_reference_image <- read_global "base64_reference_image" base64_reference_image ;;
  display_qc_report parsed_output base64_image (Some base64_reference_image).

End Expected.

(** ** A concrete instance of the libraries

    For running the notebook on concrete inputs: a file system given as a
    table, a toy image codec (two bytes for the width, two for the height,
    then the pixels), a strict base64 decoder, a JSON codec for objects,
    arrays, strings, integers and literals, and an endpoint that answers
    its n-th call with the n-th entry of a script. *)

Module Bench.

Definition byte_of (n : Z) : Byte.byte :=
  match Byte.of_N (Z.to_N (n mod 256)) with
  | Some b => b
  | None => Byte.x00
  end.

Definition encode_image (im : image) : bytes :=
  let '(w, h) := im_size im in
  byte_of (w / 256) :: byte_of w :: byte_of (h / 256) :: byte_of h :: im_pixels im.

Definition decode_image (data : bytes) : outcome image :=
  match data with
  | a :: b :: c :: d :: pixels =>
      Ok (Image "RGB" (256 * byte_val a + byte_val b, 256 * byte_val c + byte_val d) pixels)
  | _ => Raise (Exn (OtherException "UnidentifiedImageError") "cannot identify image file")
  end.

Definition open_file (files : list (string * image)) (path : string) : outcome image :=
  match find (fun f => String.eqb (fst f) path) files with
  | Some f => Ok (snd f)
  | None =>
      Raise (Exn (OtherException "FileNotFoundError")
               ("[Errno 2] No such file or directory: '" ++ path ++ "'"))
  end.

Definition resize (im : image) (size : Z * Z) : outcome image :=
  let '(w, h) := size in
  if (w <? 1) || (h <? 1)
  then Raise (Exn (OtherException "ValueError") "height and width must be > 0")
  else Ok (Image (im_mode im) size []).

Definition thumbnail (im : image) (max_size : Z * Z) : outcome image :=
  let '(w, h) := im_size im in
  let '(mw, mh) := max_size in
  if (w <=? mw) && (h <=? mh) then Ok im
  else if h * mw <=? w * mh
       then resize im (mw, Z.max 1 (h * mw / w))
       else resize im (Z.max 1 (w * mh / h), mh).

Fixpoint index_of (c : ascii) (s : string) (i : Z) : option Z :=
  match s with
  | EmptyString => None
  | String c' s' => if Ascii.eqb c c' then Some i else index_of c s' (i + 1)
  end.

Definition sextet (c : ascii) : option Z := index_of c b64_alphabet 0.

Definition bad_base64 : exn := Exn (OtherException "Error") "Incorrect padding".

Fixpoint decode_base64 (s : string) : outcome bytes :=
  match s with
  | EmptyString => Ok []
  | String a (String b (String c (String d rest))) =>
      match sextet a, sextet b with
      | Some x, Some y =>
          let n := (x * 64 + y) * 4096 in
          if Ascii.eqb c "=" then
            if Ascii.eqb d "=" && String.eqb rest "" then Ok [byte_of (n / 65536)]
            else Raise bad_base64
          else
            match sextet c with
            | None => Raise bad_base64
            | Some z =>
                let n := n + z * 64 in
                if Ascii.eqb d "=" then
                  if String.eqb rest ""
                  then Ok [byte_of (n / 65536); byte_of (n / 256)]
                  else Raise bad_base64
                else
                  match sextet d with
                  | None => Raise bad_base64
                  | Some t =>
                      let n := n + t in
                      obind (decode_base64 rest) (fun tl =>
                        Ok (byte_of (n / 65536) :: byte_of (n / 256) :: byte_of n :: tl))
                  end
            end
      | _, _ => Raise bad_base64
      end
  | _ => Raise bad_base64
  end.

(** *** Writing JSON *)

Fixpoint escape (s : string) : string :=
  match s with
  | EmptyString => EmptyString
  | String c s' =>
      let n := N_of_ascii c in
      (if (n =? 34)%N then "\" ++ dquote
       else if (n =? 92)%N then "\\"
       else if (n =? 10)%N then "\n"
       else String c EmptyString) ++ escape s'
  end.

(** A float written exactly, as mantissa*2**exponent. *)
Definition float_text (f : float) : string :=
  match Prim2SF f with
  | S754_zero s => if s then "-0.0" else "0.0"
  | S754_infinity s => if s then "-Infinity" else "Infinity"
  | S754_nan => "NaN"
  | S754_finite s m e =>
      (if s then "-" else "") ++ str_of_Z (Zpos m) ++ "*2**" ++ str_of_Z e
  end.

Fixpoint write (v : pyval) : string :=
  match v with
  | PNone => "null"
  | PBool b => if b then "true" else "false"
  | PInt z => str_of_Z z
  | PFloat f => float_text f
  | PStr s => dquote ++ escape s ++ dquote
  | PList l =>
      "[" ++ (fix items (l : list pyval) : string :=
                match l with
                | [] => ""
                | [x] => write x
                | x :: l' => write x ++ ", " ++ items l'
                end) l ++ "]"
  | PDict d =>
      "{" ++ (fix members (d : list (string * pyval)) : string :=
                match d with
                | [] => ""
                | [(k, x)] => dquote ++ escape k ++ dquote ++ ": " ++ write x
                | (k, x) :: d' => dquote ++ escape k ++ dquote ++ ": " ++ write x ++ ", " ++ members d'
                end) d ++ "}"
  end.

(** *** Reading JSON *)

Fixpoint skip_ws (s : string) : string :=
  match s with
  | String c s' =>
      let n := N_of_ascii c in
      if ((n =? 32) || (n =? 9) || (n =? 10) || (n =? 13))%N then skip_ws s' else s
  | EmptyString => s
  end.

(** The characters up to the closing quote, read backwards into [acc]. *)
Fixpoint read_string (acc : string) (s : string) : option (string * string) :=
  match s with
  | EmptyString => None
  | String c s' =>
      let n := N_of_ascii c in
      if (n =? 34)%N then Some (rev_string acc, s')
      else if (n =? 92)%N then
        match s' with
        | String e s'' =>
            let m := N_of_ascii e in
            if ((m =? 34) || (m =? 92) || (m =? 47))%N then read_string (String e acc) s''
            else if (m =? 110)%N then read_string (String (ascii_of_nat 10) acc) s''
            else if (m =? 116)%N then read_string (String (ascii_of_nat 9) acc) s''
            else None
        | EmptyString => None
        end
      else if (n <? 32)%N then None
      else read_string (String c acc) s'
  end.

Fixpoint read_digits (acc : Z) (s : string) : Z * string :=
  match s with
  | String c s' =>
      let n := Z.of_N (N_of_ascii c) in
      if (48 <=? n) && (n <=? 57) then read_digits (10 * acc + (n - 48)) s' else (acc, s)
  | EmptyString => (acc, s)
  end.

Definition is_digit (s : string) : bool :=
  match s with
  | String c _ => let n := Z.of_N (N_of_ascii c) in (48 <=? n) && (n <=? 57)
  | EmptyString => false
  end.

Definition after (w : string) (s : string) : option string :=
  if prefix w s then Some (drop (String.length w) s) else None.

Fixpoint read_value (fuel : nat) (s : string) : option (pyval * string) :=
  match fuel with
  | O => None
  | S k =>
      let s := skip_ws s in
      match s with
      | EmptyString => None
      | String c s' =>
          let n := N_of_ascii c in
          if (n =? 34)%N then
            match read_string "" s' with
            | Some (t, r) => Some (PStr t, r)
            | None => None
            end
          else if (n =? 91)%N then
            match after "]" (skip_ws s') with
            | Some r => Some (PList [], r)
            | None =>
                match read_items k s' with
                | Some (l, r) => Some (PList l, r)
                | None => None
                end
            end
          else if (n =? 123)%N then
            match after "}" (skip_ws s') with
            | Some r => Some (PDict [], r)
            | None =>
                match read_members k s' with
                | Some (d, r) => Some (PDict d, r)
                | None => None
                end
            end
          else if (n =? 45)%N then
            if is_digit s' then
              let '(z, r) := read_digits 0 s' in Some (PInt (- z), r)
            else None
          else if is_digit s then
            let '(z, r) := read_digits 0 s in Some (PInt z, r)
          else
            match after "true" s, after "false" s, after "null" s with
            | Some r, _, _ => Some (PBool true, r)
            | _, Some r, _ => Some (PBool false, r)
            | _, _, Some r => Some (PNone, r)
            | _, _, _ => None
            end
      end
  end
with read_items (fuel : nat) (s : string) : option (list pyval * string) :=
  match fuel with
  | O => None
  | S k =>
      match read_value k s with
      | Some (v, r) =>
          let r := skip_ws r in
          match after "," r, after "]" r with
          | Some r', _ =>
              match read_items k r' with
              | Some (l, r'') => Some (v :: l, r'')
              | None => None
              end
          | None, Some r' => Some ([v], r')
          | None, None => None
          end
      | None => None
      end
  end
with read_members (fuel : nat) (s : string) : option (list (string * pyval) * string) :=
  match fuel with
  | O => None
  | S k =>
      match after dquote (skip_ws s) with
      | Some r =>
          match read_string "" r with
          | Some (key, r) =>
              match after ":" (skip_ws r) with
              | Some r =>
                  match read_value k r with
                  | Some (v, r) =>
                      let r := skip_ws r in
                      match after "," r, after "}" r with
                      | Some r', _ =>
                          match read_members k r' with
                          | Some (d, r'') => Some ((key, v) :: d, r'')
                          | None => None
                          end
                      | None, Some r' => Some ([(key, v)], r')
                      | None, None => None
                      end
                  | None => None
                  end
              | None => None
              end
          | None => None
          end
      | None => None
      end
  end.

Definition read (s : string) : outcome pyval :=
  match read_value (S (String.length s)) s with
  | Some (v, r) =>
      if String.eqb (skip_ws r) "" then Ok v
      else Raise (Exn JSONDecodeError "Extra data")
  | None => Raise (Exn JSONDecodeError "Expecting value")
  end.

(** *** The endpoint *)

Definition unreachable : exn :=
  Exn (OtherException "EndpointConnectionError") "Could not connect to the endpoint URL".

Definition endpoint (script : list (outcome string)) (calls : list (string * string))
    (model_id body : string) : outcome string :=
  nth (List.length calls) script (Raise unreachable).

Definition libraries (files : list (string * image)) (script : list (outcome string))
  : Libraries :=
  {| Image_open_file := open_file files;
     Image_open_bytes := decode_image;
     Image_thumbnail := thumbnail;
     Image_resize := resize;
     Image_save_png := fun im => Ok (encode_image im);
     b64decode := decode_base64;
     json_loads := read;
     json_dumps := fun _ => write;
     py_repr := write;
     invoke_model := endpoint script |}.

End Bench.

(** ** Sample inputs *)

Definition sample_box (a b c d : Z) : pyval :=
  PDict [("x_min", PInt a); ("y_min", PInt b); ("x_max", PInt c); ("y_max", PInt d)].

Definition sample_defect (n c q r : string) (box : pyval) : pyval :=
  PDict [("name", PStr n); ("color", PStr c); ("qc", PStr q); ("reason", PStr r);
         ("bounding_box", box)].

Definition sample_image : image := Image "RGB" (1024, 768) [].

Definition sample_base64 : string := b64encode (Bench.encode_image sample_image).

Definition sample_files : list (string * image) :=
  [("./sample-dataset/metalplate_nok2.jpg", Image "RGB" (2048, 1536) []);
   ("./sample-dataset/metalplate_reference.jpg", Image "RGB" (2048, 1536) [])].

Definition sample_globals : globals :=
  Globals "./sample-dataset/metalplate_nok2.jpg" "./sample-dataset/metalplate_reference.jpg"
    "Compare the current image with the reference image"
    "Provide me the JSON with the written description in 'text' and the list of objects in 'objects'."
    None None None None None None.

Definition sample_state : state := State sample_globals [] [].

(** The object the endpoint answers with when the model wrote [answer]. *)
Definition response_with (answer : string) : pyval :=
  PDict [("output",
           PDict [("message",
                    PDict [("role", PStr "assistant");
                           ("content", PList [PDict [("text", PStr answer)]])])])].

Definition access_denied : exn :=
  Exn (OtherException "ClientError")
    "An error occurred (AccessDeniedException) when calling the InvokeModel operation: You don't have access to the model with the specified model ID.".

(** The request of the cell that checks that the model is enabled. *)
Definition hello_request : pyval :=
  PDict [("messages",
           PList [PDict [("role", PStr "user");
                         ("content", PList [PDict [("text", PStr "Hello")]])]])].

(** An answer cut before its closing brace. *)
Definition malformed_answer : string :=
  "{" ++ dquote ++ "text" ++ dquote ++ ": " ++ dquote ++ "A scratched plate" ++ dquote.

(** An answer with one accepted and one rejected region. *)
Definition two_defects : pyval :=
  PDict [("text", PStr "A metal plate with two marked regions");
         ("objects",
           PList [sample_defect "defect_1" "green" "OK" "no visible damage"
                    (sample_box 195 475 285 595);
                  sample_defect "defect_2" "blue" "NOK" "white spot and small hole"
                    (sample_box 690 420 760 500)])].

Definition accepted_region : Defect :=
  MkDefect "defect_1" "green" "OK" "no visible damage"
    (Box (NInt 195) (NInt 475) (NInt 285) (NInt 595)).

Definition rejected_region : Defect :=
  MkDefect "defect_2" "blue" "NOK" "white spot and small hole"
    (Box (NInt 690) (NInt 420) (NInt 760) (NInt 500)).

Definition two_defects_report : DefectReport :=
  MkReport "A metal plate with two marked regions" [accepted_region; rejected_region].

(** An answer without defects. *)
Definition no_defects : pyval :=
  PDict [("text", PStr "The plate matches the reference"); ("objects", PList [])].

Definition no_defects_report_sample : DefectReport :=
  MkReport "The plate matches the reference" [].

(** The libraries when the model answers the one call with [answer]. *)
Definition answering (answer : string) : Libraries :=
  Bench.libraries sample_files [Ok (Bench.write (response_with answer))].

(** ** Parts of requests and messages *)

(** The parts of a request. *)
Definition image_block (data : bytes) : pyval :=
  PDict [("image",
           PDict [("format", PStr "png");
                  ("source", PDict [("bytes", PStr (b64encode data))])])].

Definition text_block (s : string) : pyval := PDict [("text", PStr s)].

Definition user_message (content : list pyval) : pyval :=
  PDict [("role", PStr "user"); ("content", PList content)].

Definition disclaimer : string :=
  "This is the reference image. Do not include bounding boxes for this image.".

Definition not_activated_hint : list event :=
  [Print ("❌ Model '" ++ MODEL_ID ++ "' is not activated.");
   Print "🔗 Activate it here: https://console.aws.amazon.com/bedrock/home?modelaccess#/modelaccess"].

(** ** Auxiliary notions for the properties *)

(** The number of backticks a string starts with. *)
Fixpoint ticks (s : string) : nat :=
  match s with
  | String c s' => if ascii_dec "`" c then S (ticks s') else O
  | EmptyString => O
  end.

(** A computation that only shows things: it leaves the globals and the
    record of remote calls as they are and adds to what is shown. *)
Definition only_shows {A} (m : M A) : Prop :=
  forall st : state, exists evs : list event, snd (m st) = show st evs.

(** The message of the availability check when the model answers. *)
Definition activated_message : string :=
  "✅ Model '" ++ MODEL_ID ++ "' is activated and available.".

(** [sub] occurs somewhere in [s]. *)
Definition occurs (sub s : string) : Prop :=
  exists pre post : string, s = pre ++ sub ++ post.

(** The values Python multiplies by a float: [int], [float] and [bool]. *)
Definition is_number (v : pyval) : bool :=
  match v with
  | PInt _ | PFloat _ | PBool _ => true
  | _ => false
  end.

(** The paths and the prompts: the globals that only the user assigns. *)
Definition same_settings (g g' : globals) : Prop :=
  qc_image_path g' = qc_image_path g
  /\ ref_image_path g' = ref_image_path g
  /\ default_system_prompt g' = default_system_prompt g
  /\ instruction g' = instruction g.

(** From [st] to [st']: things were shown, at most [n] calls were made, all
    to [MODEL_ID], and the paths and prompts are the same. *)
Definition grows (n : nat) (st st' : state) : Prop :=
  (exists evs, shown st' = (shown st ++ evs)%list)
  /\ (exists cs, calls st' = (calls st ++ cs)%list /\ (List.length cs <= n)%nat
                 /\ Forall (fun c => fst c = MODEL_ID) cs)
  /\ same_settings (vars st) (vars st').

Definition bounded (n : nat) {A} (m : M A) : Prop :=
  forall st : state, grows n st (snd (m st)).

Section Previews.

Context {L : Libraries}.

(** The image at a third of its size, as the loaders preview it. *)
Definition third_size (im : image) : outcome image :=
  let '(w, h) := im_size im in Image_resize im (w / 3, h / 3).

(** What a loader puts into its widget. *)
Definition preview_events (w : widget) (im : image) : list event :=
  ClearOutput w ::
  match third_size im with
  | Ok small => [WidgetDisplay w small]
  | Raise e => [WidgetTraceback w e]
  end.

End Previews.

(** The globals once both images are loaded. *)
Definition loaded (g : globals) (png_qc : bytes) (thumb_qc : image)
    (png_ref : bytes) (thumb_ref : image) : globals :=
  Globals (qc_image_path g) (ref_image_path g) (default_system_prompt g) (instruction g)
    (Some (b64encode png_qc)) (Some png_qc) (Some thumb_qc)
    (Some (b64encode png_ref)) (Some png_ref) (Some thumb_ref).

(** ** Further sample inputs *)

(** A complete answer in a markdown fence. *)
Definition fenced_answer : string :=
  "```json" ++ nl ++ Bench.write two_defects ++ nl ++ "```".

(** A box with a string for a coordinate. *)
Definition quoted_box : pyval :=
  PDict [("x_min", PStr "195"); ("y_min", PInt 475); ("x_max", PInt 285); ("y_max", PInt 595)].

(** A region without a bounding box. *)
Definition boxless_region : pyval :=
  PDict [("name", PStr "defect_2"); ("color", PStr "blue"); ("qc", PStr "NOK");
         ("reason", PStr "white spot and small hole")].

(** An answer whose second region has no bounding box. *)
Definition missing_box : pyval :=
  PDict [("text", PStr "A metal plate with two marked regions");
         ("objects",
           PList [sample_defect "defect_1" "green" "OK" "no visible damage"
                    (sample_box 195 475 285 595);
                  boxless_region])].

(** An answer whose list of objects is [null]. *)
Definition null_objects : pyval :=
  PDict [("text", PStr "The plate matches the reference"); ("objects", PNone)].

(** An answer with a region and no description. *)
Definition missing_text : pyval :=
  PDict [("objects",
           PList [sample_defect "defect_1" "green" "OK" "no visible damage"
                    (sample_box 195 475 285 595)])].

(** A subject image too small for its preview. *)
Definition tiny_files : list (string * image) :=
  [("./sample-dataset/metalplate_nok2.jpg", Image "RGB" (2, 2) [])].

(** Only the subject image is on disk. *)
Definition subject_only : list (string * image) :=
  [("./sample-dataset/metalplate_nok2.jpg", Image "RGB" (2048, 1536) [])].

(** The reference image as [display_qc_report] shows it. *)
Definition half_reference : list event :=
  [Print "🧾 Reference Image:"; Display (Image "RGB" (512, 384) [])].

(** The globals after an earlier run. *)
Definition cached_state : state :=
  State (loaded sample_globals (Bench.encode_image sample_image) sample_image
           (Bench.encode_image sample_image) sample_image) [] [].

(** ** Scaling back

    The notebook only scales from the model space to the image.  The way
    back is the specification's: a drawn coordinate times [1000 / side]. *)









(** * Properties *)

Section Properties.

Context {L : Libraries}.

(** ** The monad *)

Lemma bind_lift_ok {A B} (o : outcome A) (a : A) (k : A -> M B) (st : state) :
  o = Ok a -> bind (lift o) k st = k a st.
Proof. intros ->. reflexivity. Qed.

Lemma bind_lift_raise {A B} (o : outcome A) (e : exn) (k : A -> M B) (st : state) :
  o = Raise e -> bind (lift o) k st = (Raise e, st).
Proof. intros ->. reflexivity. Qed.

Lemma py_eq_str_spec (v : pyval) (s : string) :
  py_eq_str v s = true <-> v = PStr s.
Proof.
  destruct v; simpl; try (split; [discriminate | intros H; discriminate H]).
  rewrite String.eqb_eq. split; [intros -> | intros [= ->]]; reflexivity.
Qed.

(** ** Strings *)

Lemma append_empty_r (s : string) : s ++ "" = s.
Proof. induction s as [| c s IH]; simpl; [| rewrite IH]; reflexivity. Qed.

Lemma append_assoc (a b c : string) : (a ++ b) ++ c = a ++ (b ++ c).
Proof. induction a as [| x a IH]; simpl; [| rewrite IH]; reflexivity. Qed.

(** ** States *)

Lemma show_nil (st : state) : show st [] = st.
Proof. destruct st. unfold show. simpl. rewrite app_nil_r. reflexivity. Qed.

Lemma show_show (st : state) (a b : list event) : show (show st a) b = show st (a ++ b).
Proof. unfold show. simpl. rewrite <- app_assoc. reflexivity. Qed.

Lemma emit_run (e : event) (st : state) : emit e st = (Ok tt, show st [e]).
Proof. reflexivity. Qed.

Lemma get_vars_run (st : state) : get_vars st = (Ok (vars st), st).
Proof. reflexivity. Qed.

Lemma bind_run {A B} (m : M A) (k : A -> M B) (st st' : state) (a : A) :
  m st = (Ok a, st') -> bind m k st = k a st'.
Proof. unfold bind. intros ->. reflexivity. Qed.

Lemma bind_raise {A B} (m : M A) (k : A -> M B) (st st' : state) (e : exn) :
  m st = (Raise e, st') -> bind m k st = (Raise e, st').
Proof. unfold bind. intros ->. reflexivity. Qed.

Lemma try_except_ok {A} (body : M A) (caught : exn -> bool) (handler : exn -> M A)
    (st st' : state) (a : A) :
  body st = (Ok a, st') -> try_except body caught handler st = (Ok a, st').
Proof. unfold try_except. intros ->. reflexivity. Qed.

Lemma try_except_caught {A} (body : M A) (caught : exn -> bool) (handler : exn -> M A)
    (st st' : state) (e : exn) :
  body st = (Raise e, st') -> caught e = true ->
  try_except body caught handler st = handler e st'.
Proof. unfold try_except. intros -> ->. reflexivity. Qed.

Lemma try_except_uncaught {A} (body : M A) (caught : exn -> bool) (handler : exn -> M A)
    (st st' : state) (e : exn) :
  body st = (Raise e, st') -> caught e = false ->
  try_except body caught handler st = (Raise e, st').
Proof. unfold try_except. intros -> ->. reflexivity. Qed.

(** ** Colour of a box *)

Lemma draw_box_run (sx sy : float) (obj box name qc : pyval)
    (x0 y0 x1 y1 : float) (st : state) :
  py_getitem obj "bounding_box" = Ok box ->
  scaled box "x_min" sx = Ok x0 ->
  scaled box "y_min" sy = Ok y0 ->
  scaled box "x_max" sx = Ok x1 ->
  scaled box "y_max" sy = Ok y1 ->
  py_getitem obj "name" = Ok name ->
  py_getitem obj "qc" = Ok qc ->
  draw_box sx sy obj st =
    (Ok tt,
     show st
       [AddPatch (Rectangle (x0, y0) (x1 - x0)%float (y1 - y0)%float 2
                    (if py_eq_str qc "OK" then "green" else "red") "none");
        AxText (Label x0 (y0 - 10)%float (py_str name ++ " (" ++ py_str qc ++ ")")
                  (if py_eq_str qc "OK" then "green" else "red") 12 "bold")]).
Proof.
  intros Hbox Hx0 Hy0 Hx1 Hy1 Hname Hqc.
  unfold draw_box.
  rewrite (bind_lift_ok _ _ _ _ Hbox), (bind_lift_ok _ _ _ _ Hx0),
    (bind_lift_ok _ _ _ _ Hy0), (bind_lift_ok _ _ _ _ Hx1),
    (bind_lift_ok _ _ _ _ Hy1), (bind_lift_ok _ _ _ _ Hname),
    (bind_lift_ok _ _ _ _ Hqc), (bind_lift_ok _ _ _ _ Hqc).
  rewrite (bind_run _ _ _ _ _ (emit_run _ _)), emit_run, show_show. reflexivity.
Qed.

(** C10.  Whatever object the loop of [draw_bounding_boxes] draws, it adds
    one rectangle and one label of the same colour, and that colour is
    green exactly when the [qc] field is the string OK; it is red for every
    other value of the field. *)
Theorem draw_box_color (sx sy : float) (obj box name qc : pyval)
    (x0 y0 x1 y1 : float) (st : state) :
  py_getitem obj "bounding_box" = Ok box ->
  scaled box "x_min" sx = Ok x0 ->
  scaled box "y_min" sy = Ok y0 ->
  scaled box "x_max" sx = Ok x1 ->
  scaled box "y_max" sy = Ok y1 ->
  py_getitem obj "name" = Ok name ->
  py_getitem obj "qc" = Ok qc ->
  exists c : string,
    draw_box sx sy obj st =
      (Ok tt,
       State (vars st)
         (shown st ++
            [AddPatch (Rectangle (x0, y0) (x1 - x0)%float (y1 - y0)%float 2 c "none");
             AxText (Label x0 (y0 - 10)%float (py_str name ++ " (" ++ py_str qc ++ ")")
                       c 12 "bold")])
         (calls st))
    /\ (c = "green" <-> qc = PStr "OK")
    /\ (c = "red" <-> qc <> PStr "OK").
Proof.
  intros Hbox Hx0 Hy0 Hx1 Hy1 Hname Hqc.
  exists (if py_eq_str qc "OK" then "green" else "red").
  split.
  - exact (draw_box_run sx sy obj box name qc x0 y0 x1 y1 st Hbox Hx0 Hy0 Hx1 Hy1 Hname Hqc).
  - pose proof (py_eq_str_spec qc "OK") as Hspec.
    destruct (py_eq_str qc "OK").
    + split; split; intros H.
      * apply Hspec; reflexivity.
      * reflexivity.
      * discriminate H.
      * exfalso. apply H, Hspec. reflexivity.
    + split; split; intros H.
      * discriminate H.
      * apply Hspec in H. discriminate H.
      * intros Hq. apply Hspec in Hq. discriminate Hq.
      * reflexivity.
Qed.

(** ** Reading an answer as a report *)

Lemma field_getitem (v : pyval) (k : string) (x : pyval) :
  field v k = Some x -> py_getitem v k = Ok x.
Proof.
  destruct v; simpl; try discriminate. intros ->. reflexivity.
Qed.

Lemma str_field_getitem (v : pyval) (k s : string) :
  str_field v k = Some s -> py_getitem v k = Ok (PStr s).
Proof.
  unfold str_field. destruct (field v k) as [x |] eqn:E; [| discriminate].
  destruct x; try discriminate. intros [= ->]. apply field_getitem, E.
Qed.

Lemma num_field_getitem (v : pyval) (k : string) (n : number) :
  num_field v k = Some n -> py_getitem v k = Ok (number_val n).
Proof.
  unfold num_field. destruct (field v k) as [x |] eqn:E; [| discriminate].
  destruct x; try discriminate.
  - destruct (Z.abs z <? float_limit); [| discriminate].
    intros [= <-]. apply field_getitem, E.
  - intros [= <-]. apply field_getitem, E.
Qed.

Lemma num_field_scaled (v : pyval) (k : string) (n : number) (s : float) :
  num_field v k = Some n -> scaled v k s = Ok (number_float n * s)%float.
Proof.
  unfold num_field, scaled. destruct (field v k) as [x |] eqn:E; [| discriminate].
  rewrite (field_getitem _ _ _ E).
  destruct x; try discriminate.
  - destruct (Z.abs z <? float_limit) eqn:Hz; [| discriminate].
    intros [= <-]. unfold obind, py_mul_float, float_of_int. rewrite Hz. reflexivity.
  - intros [= <-]. reflexivity.
Qed.

Lemma box_of_inv (v : pyval) (b : BoundingBox) :
  box_of v = Some b ->
  num_field v "x_min" = Some (x_min b) /\ num_field v "y_min" = Some (y_min b)
  /\ num_field v "x_max" = Some (x_max b) /\ num_field v "y_max" = Some (y_max b).
Proof.
  unfold box_of.
  destruct (num_field v "x_min"), (num_field v "y_min"), (num_field v "x_max"),
    (num_field v "y_max"); try discriminate.
  intros [= <-]. repeat split.
Qed.

Lemma defect_of_inv (v : pyval) (d : Defect) :
  defect_of v = Some d ->
  exists box,
    py_getitem v "bounding_box" = Ok box /\ box_of box = Some (bounding_box d)
    /\ py_getitem v "name" = Ok (PStr (name d))
    /\ py_getitem v "color" = Ok (PStr (color d))
    /\ py_getitem v "qc" = Ok (PStr (qc d))
    /\ py_getitem v "reason" = Ok (PStr (reason d)).
Proof.
  unfold defect_of.
  destruct (str_field v "name") eqn:En; [| discriminate].
  destruct (str_field v "color") eqn:Ec; [| discriminate].
  destruct (str_field v "qc") eqn:Eq; [| discriminate].
  destruct (str_field v "reason") eqn:Er; [| discriminate].
  destruct (field v "bounding_box") as [box |] eqn:Eb; [| discriminate].
  destruct (box_of box) eqn:Ebox; [| discriminate].
  intros [= <-]. exists box. simpl.
  repeat split; auto using field_getitem, str_field_getitem.
Qed.

Lemma report_of_inv (v : pyval) (r : DefectReport) :
  report_of v = Some r ->
  exists l,
    py_get v "objects" = Ok (PList l) /\ py_getitem v "objects" = Ok (PList l)
    /\ py_getitem v "text" = Ok (PStr (text r))
    /\ defects_of l = Some (objects r).
Proof.
  unfold report_of.
  destruct (str_field v "text") eqn:Et; [| discriminate].
  destruct (field v "objects") as [x |] eqn:Eo; [| discriminate].
  destruct x; try discriminate.
  destruct (defects_of l) eqn:El; [| discriminate].
  intros [= <-]. exists l. simpl.
  repeat split; auto using field_getitem, str_field_getitem.
  destruct v; try discriminate. simpl in *. rewrite Eo. reflexivity.
Qed.

(** ** Drawing the boxes of a report *)

Lemma draw_box_defect (sx sy : float) (obj : pyval) (d : Defect) (st : state) :
  defect_of obj = Some d ->
  draw_box sx sy obj st = (Ok tt, show st (defect_artists sx sy d)).
Proof.
  intros H. destruct (defect_of_inv _ _ H) as (box & Hb & Hbox & Hn & _ & Hq & _).
  destruct (box_of_inv _ _ Hbox) as (H0 & H1 & H2 & H3).
  rewrite (draw_box_run sx sy obj box _ _ _ _ _ _ st Hb
             (num_field_scaled _ _ _ sx H0) (num_field_scaled _ _ _ sy H1)
             (num_field_scaled _ _ _ sx H2) (num_field_scaled _ _ _ sy H3) Hn Hq).
  reflexivity.
Qed.

Lemma for_each_draw_box (sx sy : float) (l : list pyval) :
  forall (ds : list Defect) (st : state),
    defects_of l = Some ds ->
    for_each l (draw_box sx sy) st = (Ok tt, show st (flat_map (defect_artists sx sy) ds)).
Proof.
  induction l as [| obj l IH]; intros ds st H; simpl in H.
  - injection H as <-. simpl. unfold ret. rewrite show_nil. reflexivity.
  - destruct (defect_of obj) as [d |] eqn:Ed; [| discriminate].
    destruct (defects_of l) as [ds' |] eqn:El; [| discriminate].
    injection H as <-. simpl for_each.
    rewrite (bind_run _ _ _ _ _ (draw_box_defect sx sy obj d st Ed)).
    rewrite (IH ds' _ eq_refl), show_show. reflexivity.
Qed.

Lemma draw_bounding_boxes_defects (b64 : string) (im : image) (l : list pyval)
    (ds : list Defect) (st : state) :
  open_base64 b64 = Ok im ->
  defects_of l = Some ds ->
  draw_bounding_boxes b64 (PList l) st =
    (Ok tt,
     show st ([Subplots (10, 10); Imshow im]
                ++ flat_map (defect_artists (scale_x im) (scale_y im)) ds
                ++ [AxisOff; Show])).
Proof.
  unfold open_base64. intros Him Hds.
  destruct (b64decode b64) as [data |] eqn:Hdata; [| discriminate]. simpl in Him.
  unfold draw_bounding_boxes.
  rewrite (bind_lift_ok _ _ _ _ Hdata), (bind_lift_ok _ _ _ _ Him).
  unfold scale_x, scale_y. destruct (im_size im) as [w h]. simpl fst. simpl snd.
  rewrite (bind_run _ _ _ _ _ (emit_run _ _)), (bind_run _ _ _ _ _ (emit_run _ _)).
  rewrite (bind_lift_ok _ (l) _ _ eq_refl).
  rewrite (bind_run _ _ _ _ _ (for_each_draw_box _ _ l ds _ Hds)).
  rewrite (bind_run _ _ _ _ _ (emit_run _ _)), emit_run.
  rewrite !show_show. reflexivity.
Qed.

(** ** The report *)

Lemma display_reference_run (ref : option string) (evs : list event) (st : state) :
  reference_preview ref = Ok evs ->
  display_reference ref st = (Ok tt, show st evs).
Proof.
  intros H. unfold reference_preview, open_base64, half_size in H.
  unfold display_reference.
  destruct ref as [s |].
  - destruct (negb (String.eqb s "")).
    + destruct (b64decode s) as [data |] eqn:Hdata; [| discriminate]. simpl obind in H.
      destruct (Image_open_bytes data) as [im |] eqn:Him; [| discriminate]. simpl obind in H.
      rewrite (bind_lift_ok _ data _ _ eq_refl), (bind_lift_ok _ _ _ _ Him).
      destruct (im_size im) as [w h].
      destruct (Image_resize im (w / 2, h / 2)) as [resized |] eqn:Hres; [| discriminate].
      simpl obind in H. injection H as <-.
      rewrite (bind_lift_ok _ resized _ _ eq_refl).
      unfold print, display. rewrite (bind_run _ _ _ _ _ (emit_run _ _)), emit_run, show_show.
      reflexivity.
    + injection H as <-. unfold ret. rewrite show_nil. reflexivity.
  - injection H as <-. unfold ret. rewrite show_nil. reflexivity.
Qed.

Lemma defect_lines_defect (obj : pyval) (d : Defect) :
  defect_of obj = Some d -> defect_lines obj = Ok (defect_text d).
Proof.
  intros H. destruct (defect_of_inv _ _ H) as (box & Hb & Hbox & Hn & Hc & Hq & Hr).
  destruct (box_of_inv _ _ Hbox) as (H0 & H1 & H2 & H3).
  unfold defect_lines.
  rewrite Hb, Hn, Hc, Hq, Hr. simpl obind.
  rewrite (num_field_getitem _ _ _ H0), (num_field_getitem _ _ _ H1),
    (num_field_getitem _ _ _ H2), (num_field_getitem _ _ _ H3).
  reflexivity.
Qed.

Lemma add_defects_defects (l : list pyval) :
  forall (ds : list Defect) (report_text : string),
    defects_of l = Some ds ->
    add_defects report_text l = Ok (report_text ++ String.concat "" (map defect_text ds)).
Proof.
  induction l as [| obj l IH]; intros ds report_text H; simpl in H.
  - injection H as <-. simpl. rewrite append_empty_r. reflexivity.
  - destruct (defect_of obj) as [d |] eqn:Ed; [| discriminate].
    destruct (defects_of l) as [ds' |] eqn:El; [| discriminate].
    injection H as <-. simpl add_defects.
    rewrite (defect_lines_defect _ _ Ed). simpl obind.
    rewrite (IH ds' _ eq_refl). f_equal.
    rewrite append_assoc. f_equal.
    destruct ds' as [| d' ds'']; simpl.
    + rewrite append_empty_r. reflexivity.
    + reflexivity.
Qed.

Lemma display_qc_report_defects (parsed : pyval) (r : DefectReport) (d : Defect)
    (ds : list Defect) (b64 : string) (im : image) (ref : option string)
    (evs : list event) (st : state) :
  report_of parsed = Some r ->
  objects r = d :: ds ->
  reference_preview ref = Ok evs ->
  open_base64 b64 = Ok im ->
  display_qc_report parsed b64 ref st =
    (Ok tt,
     show st
       (evs ++ [Print "🧾 QC Image with Defects:"; Subplots (10, 10); Imshow im]
            ++ flat_map (defect_artists (scale_x im) (scale_y im)) (d :: ds)
            ++ [AxisOff; Show;
                Print (nl ++ "🧾 Quality Control Report:");
                Print (defects_report (qc d) (text r) (d :: ds))])).
Proof.
  intros Hr Hobjs Href Him.
  destruct (report_of_inv _ _ Hr) as (l & Hget & Hitem & Htext & Hds).
  rewrite Hobjs in Hds.
  destruct l as [| obj l]; [discriminate Hds |].
  assert (Hfirst : py_getitem obj "qc" = Ok (PStr (qc d))).
  { simpl in Hds. destruct (defect_of obj) as [d0 |] eqn:Ed; [| discriminate].
    destruct (defects_of l); [| discriminate]. injection Hds as -> _.
    destruct (defect_of_inv _ _ Ed) as (_ & _ & _ & _ & _ & Hq & _). exact Hq. }
  unfold display_qc_report.
  rewrite (bind_run _ _ _ _ _ (display_reference_run _ _ _ Href)).
  rewrite (bind_lift_ok _ _ _ _ Hget).
  cbn [py_truthy].
  unfold print at 1.
  rewrite (bind_run _ (fun report_text => _) _ (show (show st evs)
             ([Print "🧾 QC Image with Defects:"; Subplots (10, 10); Imshow im]
                ++ flat_map (defect_artists (scale_x im) (scale_y im)) (d :: ds)
                ++ [AxisOff; Show]))
             (defects_report (qc d) (text r) (d :: ds))).
  - unfold print. rewrite (bind_run _ _ _ _ _ (emit_run _ _)), emit_run, !show_show.
    f_equal. f_equal. rewrite <- !app_assoc. reflexivity.
  - rewrite (bind_run _ _ _ _ _ (emit_run _ _)).
    rewrite (bind_lift_ok _ _ _ _ Hitem).
    rewrite (bind_run _ _ _ _ _ (draw_bounding_boxes_defects _ _ _ _ _ Him Hds)).
    rewrite (bind_lift_ok _ _ _ _ Hitem).
    rewrite (bind_lift_ok _ obj _ _ eq_refl).
    rewrite (bind_lift_ok _ _ _ _ Hfirst), (bind_lift_ok _ _ _ _ Htext).
    rewrite (bind_lift_ok _ _ _ _ Hitem).
    rewrite (bind_lift_ok _ (obj :: l) _ _ eq_refl).
    unfold lift. rewrite (add_defects_defects _ _ _ Hds), show_show.
    unfold defects_report. simpl py_str. rewrite !append_assoc. reflexivity.
Qed.

Lemma display_qc_report_no_defects (parsed : pyval) (r : DefectReport) (b64 : string)
    (im resized : image) (ref : option string) (evs : list event) (st : state) :
  report_of parsed = Some r ->
  objects r = [] ->
  reference_preview ref = Ok evs ->
  open_base64 b64 = Ok im ->
  half_size im = Ok resized ->
  display_qc_report parsed b64 ref st =
    (Ok tt,
     show st
       (evs ++ [Print "🧾 QC Image:"; Display resized;
                Print (nl ++ "🧾 Quality Control Report:");
                Print (no_defects_report (text r))])).
Proof.
  intros Hr Hobjs Href Him Hhalf.
  destruct (report_of_inv _ _ Hr) as (l & Hget & Hitem & Htext & Hds).
  rewrite Hobjs in Hds.
  destruct l as [| obj l].
  2:{ simpl in Hds. destruct (defect_of obj); [| discriminate].
      destruct (defects_of l); discriminate. }
  unfold open_base64 in Him.
  destruct (b64decode b64) as [data |] eqn:Hdata; [| discriminate]. simpl in Him.
  unfold half_size in Hhalf.
  unfold display_qc_report.
  rewrite (bind_run _ _ _ _ _ (display_reference_run _ _ _ Href)).
  rewrite (bind_lift_ok _ _ _ _ Hget).
  cbn [py_truthy].
  rewrite (bind_run _ (fun report_text => _) _
             (show (show st evs) [Print "🧾 QC Image:"; Display resized])
             (no_defects_report (text r))).
  - unfold print. rewrite (bind_run _ _ _ _ _ (emit_run _ _)), emit_run, !show_show.
    reflexivity.
  - rewrite (bind_lift_ok _ _ _ _ Hdata), (bind_lift_ok _ _ _ _ Him).
    destruct (im_size im) as [w h].
    rewrite (bind_lift_ok _ _ _ _ Hhalf).
    unfold print, display.
    rewrite (bind_run _ _ _ _ _ (emit_run _ _)), (bind_run _ _ _ _ _ (emit_run _ _)).
    rewrite (bind_lift_ok _ _ _ _ Htext), show_show. reflexivity.
Qed.

Lemma display_qc_report_none (b64 : string) (ref : option string) (evs : list event)
    (st : state) :
  reference_preview ref = Ok evs ->
  display_qc_report PNone b64 ref st =
    (Raise (Exn AttributeError "'NoneType' object has no attribute 'get'"), show st evs).
Proof.
  intros Href. unfold display_qc_report.
  rewrite (bind_run _ _ _ _ _ (display_reference_run _ _ _ Href)).
  reflexivity.
Qed.

Lemma patches_app (a b : list event) :
  patches (a ++ b) = (patches a ++ patches b)%list.
Proof.
  induction a as [| e a IH]; simpl; [reflexivity |].
  destruct e; simpl; rewrite IH; reflexivity.
Qed.

Lemma patches_artists (sx sy : float) (ds : list Defect) :
  patches (flat_map (defect_artists sx sy) ds) = map (defect_rectangle sx sy) ds.
Proof.
  induction ds as [| d ds IH]; simpl; [| rewrite IH]; reflexivity.
Qed.

Lemma patches_reference_preview (ref : option string) (evs : list event) :
  reference_preview ref = Ok evs -> patches evs = [].
Proof.
  unfold reference_preview.
  destruct ref as [s |]; [destruct (negb (String.eqb s "")) |];
    try (intros [= <-]; reflexivity).
  destruct (open_base64 s) as [im |]; [| discriminate]. simpl.
  destruct (half_size im); [| discriminate]. simpl.
  intros [= <-]. reflexivity.
Qed.

(** C1.  For a report with at least one defect, [display_qc_report]
    completes; the last two things it prints are the heading of the report
    and the report, whose first line is the [qc] field of the first defect,
    whatever the other defects say; and it draws one rectangle per defect,
    green for OK and red otherwise.  With two defects, one OK and one NOK,
    that is two rectangles, one green and one red. *)
Theorem report_verdict_is_first_defect (parsed : pyval) (r : DefectReport) (d : Defect)
    (ds : list Defect) (b64 : string) (im : image) (ref : option string)
    (evs : list event) (st : state) :
  report_of parsed = Some r ->
  objects r = d :: ds ->
  reference_preview ref = Ok evs ->
  open_base64 b64 = Ok im ->
  exists (before : list event) (rest : string),
    display_qc_report parsed b64 ref st =
      (Ok tt,
       State (vars st)
         (shown st ++ before ++
            [Print (nl ++ "🧾 Quality Control Report:");
             Print ("QC: " ++ qc d ++ nl ++ rest)])
         (calls st))
    /\ map rect_edgecolor (patches before) = map (fun x => qc_color (qc x)) (d :: ds)
    /\ (forall d2, ds = [d2] ->
          (qc d = "OK" /\ qc d2 = "NOK" ->
           map rect_edgecolor (patches before) = ["green"; "red"])
          /\ (qc d = "NOK" /\ qc d2 = "OK" ->
              map rect_edgecolor (patches before) = ["red"; "green"])).
Proof.
  intros Hr Hobjs Href Him.
  exists (evs ++ [Print "🧾 QC Image with Defects:"; Subplots (10, 10); Imshow im]
              ++ flat_map (defect_artists (scale_x im) (scale_y im)) (d :: ds)
              ++ [AxisOff; Show])%list.
  exists (nl ++ "Description:" ++ nl ++ text r ++ nl ++ nl ++ "Defects:"
             ++ String.concat "" (map defect_text (d :: ds))).
  assert (Hcolors :
            map rect_edgecolor
              (patches
                 (evs ++ [Print "🧾 QC Image with Defects:"; Subplots (10, 10); Imshow im]
                      ++ flat_map (defect_artists (scale_x im) (scale_y im)) (d :: ds)
                      ++ [AxisOff; Show]))
            = map (fun x => qc_color (qc x)) (d :: ds)).
  { rewrite !patches_app, (patches_reference_preview _ _ Href), patches_artists.
    change (patches [AxisOff; Show]) with (@nil rectangle).
    rewrite app_nil_r. cbn [patches app]. rewrite map_map. reflexivity. }
  split; [| split].
  - rewrite (display_qc_report_defects _ _ _ _ _ _ _ _ st Hr Hobjs Href Him).
    unfold show, defects_report. rewrite <- !app_assoc. reflexivity.
  - exact Hcolors.
  - intros d2 ->. rewrite Hcolors. simpl.
    split; intros [-> ->]; reflexivity.
Qed.

(** C6.  For a report whose list of defects is empty, [display_qc_report]
    shows the subject image (at half size) and draws nothing on it, then
    prints the heading and a report that says OK, gives the description and
    says that no defects were detected, with no line for any defect. *)
Theorem empty_objects_plain_report (parsed : pyval) (r : DefectReport) (b64 : string)
    (im resized : image) (ref : option string) (evs : list event) (st : state) :
  report_of parsed = Some r ->
  objects r = [] ->
  reference_preview ref = Ok evs ->
  open_base64 b64 = Ok im ->
  half_size im = Ok resized ->
  display_qc_report parsed b64 ref st =
    (Ok tt,
     State (vars st)
       (shown st ++ evs ++
          [Print "🧾 QC Image:"; Display resized;
           Print (nl ++ "🧾 Quality Control Report:");
           Print ("QC: OK" ++ nl ++ nl ++ "Description:" ++ nl ++ text r ++ nl ++ nl
                    ++ "No defects were detected." ++ nl)])
       (calls st))
  /\ patches
       (evs ++ [Print "🧾 QC Image:"; Display resized;
                Print (nl ++ "🧾 Quality Control Report:");
                Print ("QC: OK" ++ nl ++ nl ++ "Description:" ++ nl ++ text r ++ nl ++ nl
                         ++ "No defects were detected." ++ nl)]) = [].
Proof.
  intros Hr Hobjs Href Him Hhalf. split.
  - exact (display_qc_report_no_defects _ _ _ _ _ _ _ st Hr Hobjs Href Him Hhalf).
  - rewrite patches_app, (patches_reference_preview _ _ Href). reflexivity.
Qed.

(** ** A response that cannot be parsed *)

Lemma parse_qc_response_try (model_response : pyval) (st : state) :
  py_truthy model_response = true ->
  parse_qc_response model_response st =
    try_except
      (raw_text <- lift (response_text model_response) ;;
       stripped <- lift (py_strip raw_text) ;;
       parsed <- lift (json_loads (remove_all "```" (remove_all "```json" stripped))) ;;
       print "✅ Parsed QC Output:" ;;
       print (json_dumps (Some 2) parsed) ;;
       ret parsed)
      (fun e =>
         match exn_class_of e with
         | KeyError | JSONDecodeError => true
         | _ => false
         end)
      (fun e =>
         print ("❌ Response parsing failed: " ++ exn_str e) ;;
         ret PNone)
      st.
Proof.
  intros Ht. unfold parse_qc_response. rewrite Ht. change (negb true) with false. cbv iota.
  unfold try_except. f_equal.
  unfold response_text, bind, lift.
  destruct (py_getitem model_response "output") as [output |]; [| reflexivity].
  simpl obind. destruct (py_getitem output "message") as [message |]; [| reflexivity].
  simpl obind. destruct (py_getitem message "content") as [content |]; [| reflexivity].
  simpl obind. destruct (py_getitem0 content) as [block |]; reflexivity.
Qed.

(** The first half of C2: a response whose keys are missing, or whose text
    is not JSON once the fences are removed, makes [parse_qc_response]
    print the failure and return [None]. *)
Lemma parse_qc_response_reports_failure (model_response : pyval) (e : exn) (st : state) :
  py_truthy model_response = true ->
  response_text model_response = Raise e
  \/ (exists raw_text, response_text model_response = Ok (PStr raw_text)
                       /\ json_loads (clean_json raw_text) = Raise e) ->
  exn_class_of e = KeyError \/ exn_class_of e = JSONDecodeError ->
  parse_qc_response model_response st =
    (Ok PNone, show st [Print ("❌ Response parsing failed: " ++ exn_str e)]).
Proof.
  intros Ht Hfail Hclass.
  rewrite (parse_qc_response_try _ _ Ht).
  rewrite (try_except_caught _ _ _ st st e).
  - unfold print. rewrite (bind_run _ _ _ _ _ (emit_run _ _)). reflexivity.
  - destruct Hfail as [Hpath | (raw_text & Hpath & Hloads)].
    + apply bind_lift_raise, Hpath.
    + rewrite (bind_lift_ok _ _ _ _ Hpath).
      rewrite (bind_lift_ok _ (strip raw_text) _ _ eq_refl).
      apply bind_lift_raise, Hloads.
  - destruct Hclass as [-> | ->]; reflexivity.
Qed.

(** The second half of C2 fails: given [None], [display_qc_report] always
    raises. *)
Lemma display_qc_report_none_raises (b64 : string) (ref : option string) (st : state) :
  exists (e : exn) (st' : state), display_qc_report PNone b64 ref st = (Raise e, st').
Proof.
  unfold display_qc_report, bind.
  destruct (display_reference ref st) as [[[] | e] st'].
  - eexists. eexists. reflexivity.
  - exists e, st'. reflexivity.
Qed.

Lemma run_qc_full_pipeline_parts (qc_path ref_path : string) (st : state) :
  run_qc_full_pipeline qc_path ref_path st =
    (model_response <- pipeline_request ;;
     parsed_output <- parse_qc_response model_response ;;
     pipeline_report parsed_output) st.
Proof.
  unfold run_qc_full_pipeline, pipeline_request, pipeline_report, bind.
  destruct (load_qc_image st) as [[[] | e] st1]; [| reflexivity].
  destruct (load_ref_image st1) as [[[] | e] st2]; [| reflexivity].
  destruct (read_global "image_data" image_data st2) as [[data | e] st3]; [| reflexivity].
  destruct (get_vars st3) as [[g | e] st4]; [| reflexivity].
  destruct (read_global "reference_image_data" reference_image_data st4)
    as [[rdata | e] st5]; reflexivity.
Qed.

Lemma pipeline_report_none_raises (st : state) :
  exists (e : exn) (st' : state), pipeline_report PNone st = (Raise e, st').
Proof.
  unfold pipeline_report. unfold bind at 1.
  destruct (read_global "base64_image" base64_image st) as [[b64 | e] st1].
  - unfold bind at 1.
    destruct (read_global "base64_reference_image" base64_reference_image st1)
      as [[ref | e] st2].
    + apply display_qc_report_none_raises.
    + exists e, st2. reflexivity.
  - exists e, st1. reflexivity.
Qed.

(** Whenever the pipeline gets as far as parsing and [parse_qc_response]
    returns [None], an exception leaves [run_qc_full_pipeline]. *)
Lemma failed_parse_escapes (qc_path ref_path : string) (model_response : pyval)
    (st st1 st2 : state) :
  pipeline_request st = (Ok model_response, st1) ->
  parse_qc_response model_response st1 = (Ok PNone, st2) ->
  exists (e : exn) (st' : state),
    run_qc_full_pipeline qc_path ref_path st = (Raise e, st').
Proof.
  intros Hreq Hparse.
  rewrite run_qc_full_pipeline_parts.
  rewrite (bind_run _ _ _ _ _ Hreq), (bind_run _ _ _ _ _ Hparse).
  apply pipeline_report_none_raises.
Qed.

(** Lines 470 and 471 of the pipeline: what follows a failed parse. *)
Lemma display_after_failed_parse (model_response : pyval) (b64 : string)
    (ref : option string) (evs : list event) (st st' : state) :
  parse_qc_response model_response st = (Ok PNone, st') ->
  reference_preview ref = Ok evs ->
  (parsed_output <- parse_qc_response model_response ;;
   display_qc_report parsed_output b64 ref) st =
    (Raise (Exn AttributeError "'NoneType' object has no attribute 'get'"), show st' evs).
Proof.
  intros Hparse Href.
  rewrite (bind_run _ _ _ _ _ Hparse).
  apply display_qc_report_none, Href.
Qed.

(** ** The loader and the scaling *)

(** What [get_png_base64_from_file] adds to Pillow: the base64 text is that
    of the bytes returned, the bytes are the PNG of the image returned, and
    the image returned is the thumbnail Pillow made for [max_size]. *)
Lemma get_png_base64_from_file_run (filepath : string) (max_size : Z * Z)
    (im thumb : image) (png : bytes) (st : state) :
  Image_open_file filepath = Ok im ->
  Image_thumbnail im max_size = Ok thumb ->
  Image_save_png thumb = Ok png ->
  get_png_base64_from_file filepath max_size st = (Ok (b64encode png, png, thumb), st).
Proof.
  intros Ho Ht Hs. unfold get_png_base64_from_file.
  rewrite (bind_lift_ok _ _ _ _ Ho), (bind_lift_ok _ _ _ _ Ht), (bind_lift_ok _ _ _ _ Hs).
  reflexivity.
Qed.


(** In binary64 the scaling is neither exactly invertible nor exactly
    additive: on a 1024 x 768 image, 285 scaled and scaled back is not 285,
    and scaling 195 + 475 differs from adding the two scaled values. *)
Example scaling_back_is_inexact :
  (Z_to_float 285 * int_truediv 1024 1000 * int_truediv 1000 1024 =? Z_to_float 285)%float
  = false.
Proof. reflexivity. Qed.

(** On the same image every whole coordinate of the model space comes back
    within [2 ^ -40] of itself. *)
Example scaling_back_is_close :
  forallb
    (fun k : nat =>
       let x := Z_to_float (Z.of_nat k) in
       let back := (x * int_truediv 1024 1000 * int_truediv 1000 1024)%float in
       (abs (back - x) <=? Z.ldexp 1 (-40))%float)
    (seq 0 1001) = true.
Proof. vm_compute. reflexivity. Qed.

Example scaling_is_not_additive :
  ((Z_to_float 195 + Z_to_float 475) * int_truediv 768 1000
   =? Z_to_float 195 * int_truediv 768 1000 + Z_to_float 475 * int_truediv 768 1000)%float
  = false.
Proof. reflexivity. Qed.






(** ** The request *)

(** C7.  The request has a system list holding exactly the system prompt, a
    first user message with the base64 of the subject image and the
    instruction, a second user message with the disclaimer and the base64
    of the reference image exactly when a reference image (a non-empty byte
    string) is given, and the fixed inference parameters. *)
Theorem build_qc_request_shape (image_data : bytes) (instruction system_prompt : string)
    (reference : option bytes) :
  exists (rest : list pyval) (config : pyval),
    py_getitem (build_qc_request image_data instruction system_prompt reference) "system"
      = Ok (PList [text_block system_prompt])
    /\ py_getitem (build_qc_request image_data instruction system_prompt reference) "messages"
      = Ok (PList (user_message [image_block image_data; text_block instruction] :: rest))
    /\ ((exists data, reference = Some data /\ data <> []
                      /\ rest = [user_message [text_block disclaimer; image_block data]])
        \/ ((reference = None \/ reference = Some []) /\ rest = []))
    /\ py_getitem (build_qc_request image_data instruction system_prompt reference)
         "inferenceConfig" = Ok config
    /\ py_getitem config "max_new_tokens" = Ok (PInt 2500)
    /\ py_getitem config "temperature" = Ok (PFloat 0.1)
    /\ py_getitem config "top_p" = Ok (PFloat 0.1)
    /\ py_getitem config "top_k" = Ok (PInt 20).
Proof.
  exists (match reference with
          | Some ((_ :: _) as data) => [user_message [text_block disclaimer; image_block data]]
          | _ => []
          end).
  exists (PDict [("max_new_tokens", PInt 2500); ("top_p", PFloat 0.1); ("top_k", PInt 20);
                 ("temperature", PFloat 0.1)]).
  split; [reflexivity |].
  split; [destruct reference as [[| b data] |]; reflexivity |].
  split.
  - destruct reference as [[| b data] |].
    + right. split; [right |]; reflexivity.
    + left. exists (b :: data). split; [reflexivity |]. split; [discriminate | reflexivity].
    + right. split; [left |]; reflexivity.
  - repeat split; destruct reference as [[| b data] |]; reflexivity.
Qed.

(** ** The inference client *)

Lemma invoke_qc_model_run (native_request : pyval) (model_id : string) (st : state) :
  invoke_qc_model native_request model_id st =
    let body := json_dumps None native_request in
    let after := (calls st ++ [(model_id, body)])%list in
    match obind (invoke_model (calls st) model_id body) json_loads with
    | Ok model_response =>
        (Ok model_response,
         State (vars st) (shown st ++ [Print "✅ Inference completed successfully."]) after)
    | Raise e =>
        (Ok PNone,
         State (vars st) (shown st ++ [Print ("❌ Model invocation error: " ++ exn_str e)]) after)
    end.
Proof.
  unfold invoke_qc_model, try_except, bind, remote_invoke_model, lift, print, emit, ret.
  simpl.
  destruct (invoke_model (calls st) model_id (json_dumps None native_request)) as [body | e];
    simpl; [| reflexivity].
  destruct (json_loads body); reflexivity.
Qed.

(** C8.  The client sends the request once.  When the call and the decoding
    of its body succeed it returns the decoded object; when either raises
    an exception it prints the error and returns [None].  It never raises
    and it makes exactly one call in both cases. *)
Theorem invoke_qc_model_total (native_request : pyval) (model_id : string) (st : state) :
  exists (result : pyval) (message : string),
    invoke_qc_model native_request model_id st =
      (Ok result,
       State (vars st) (shown st ++ [Print message])
         (calls st ++ [(model_id, json_dumps None native_request)]))
    /\ match obind (invoke_model (calls st) model_id (json_dumps None native_request))
               json_loads with
       | Ok model_response =>
           result = model_response /\ message = "✅ Inference completed successfully."
       | Raise e =>
           result = PNone /\ message = "❌ Model invocation error: " ++ exn_str e
       end.
Proof.
  rewrite invoke_qc_model_run. cbv zeta.
  destruct (obind (invoke_model (calls st) model_id (json_dumps None native_request)) json_loads)
    as [model_response | e].
  - exists model_response, "✅ Inference completed successfully.". repeat split.
  - exists PNone, ("❌ Model invocation error: " ++ exn_str e). repeat split.
Qed.

Lemma check_model_enabled_raise (e : exn) (st : state) :
  invoke_model (calls st) MODEL_ID (json_dumps None hello_request) = Raise e ->
  check_model_enabled st =
    (Ok tt,
     State (vars st)
       (shown st ++
          (if contains "AccessDeniedException" (exn_str e)
              || contains "is not enabled" (exn_str e)
           then not_activated_hint
           else [Print ("❌ Error: " ++ exn_str e)]))
       (calls st ++ [(MODEL_ID, json_dumps None hello_request)])).
Proof.
  intros H.
  unfold check_model_enabled, try_except, bind, remote_invoke_model.
  fold hello_request. rewrite H. simpl.
  destruct (contains "AccessDeniedException" (exn_str e) || contains "is not enabled" (exn_str e)).
  - unfold bind, print, emit. simpl. rewrite <- app_assoc. reflexivity.
  - reflexivity.
Qed.

(** C3, as the notebook has it.  When the remote call raises an exception
    whose text contains AccessDeniedException, the cell that checks the
    model prints the two lines of the hint and nothing else, while
    [invoke_qc_model] prints its one generic line and returns [None]. *)
Theorem access_denied_paths (e : exn) (native_request : pyval) (model_id : string)
    (st : state) :
  contains "AccessDeniedException" (exn_str e) = true ->
  (invoke_model (calls st) MODEL_ID (json_dumps None hello_request) = Raise e ->
   check_model_enabled st =
     (Ok tt,
      State (vars st) (shown st ++ not_activated_hint)
        (calls st ++ [(MODEL_ID, json_dumps None hello_request)])))
  /\ (invoke_model (calls st) model_id (json_dumps None native_request) = Raise e ->
      invoke_qc_model native_request model_id st =
        (Ok PNone,
         State (vars st) (shown st ++ [Print ("❌ Model invocation error: " ++ exn_str e)])
           (calls st ++ [(model_id, json_dumps None native_request)]))).
Proof.
  intros Hdenied. split; intros Hcall.
  - rewrite (check_model_enabled_raise e st Hcall), Hdenied. reflexivity.
  - rewrite invoke_qc_model_run. cbv zeta. rewrite Hcall. reflexivity.
Qed.

(** ** The arguments of the pipeline *)

(** C9.  The two arguments of [run_qc_full_pipeline] are not used: from the
    same state, any two pairs of arguments give the same outcome, the same
    globals (the images loaded), the same remote calls (the request built)
    and the same things shown (the report).  The image loaded is the one at
    the global [qc_image_path]: when that file cannot be opened the run
    stops with that error, whatever path was passed. *)
Theorem run_qc_full_pipeline_ignores_arguments (qc_path ref_path qc_path' ref_path' : string)
    (st : state) :
  run_qc_full_pipeline qc_path ref_path st = run_qc_full_pipeline qc_path' ref_path' st
  /\ match Image_open_file (qc_image_path (vars st)) with
     | Raise e => run_qc_full_pipeline qc_path ref_path st = (Raise e, st)
     | Ok _ => True
     end.
Proof.
  split; [reflexivity |].
  destruct (Image_open_file (qc_image_path (vars st))) as [im | e] eqn:Hopen; [exact I |].
  unfold run_qc_full_pipeline, load_qc_image.
  apply bind_raise.
  rewrite (bind_run _ _ _ _ _ (get_vars_run st)).
  apply bind_raise. unfold get_png_base64_from_file.
  apply bind_lift_raise, Hopen.
Qed.

End Properties.

(** * Further properties of the notebook *)

Section Further.

Context {L : Libraries}.

(** ** Cleaning the answer *)

Lemma prefix_cons (a b : ascii) (s1 s2 : string) :
  prefix (String a s1) (String b s2) = if ascii_dec a b then prefix s1 s2 else false.
Proof. reflexivity. Qed.

Lemma prefix_empty (s : string) : prefix "" s = true.
Proof. destruct s; reflexivity. Qed.

Lemma contains_cons (sub : string) (c : ascii) (s : string) :
  contains sub (String c s) = prefix sub (String c s) || contains sub s.
Proof. reflexivity. Qed.

Lemma contains_tick_cons (c : ascii) (s : string) :
  contains "`" (String c s) = false -> c <> "`"%char /\ contains "`" s = false.
Proof.
  rewrite contains_cons, prefix_cons, prefix_empty.
  destruct (ascii_dec "`" c) as [<- | Hc].
  - discriminate.
  - intros H. split; [congruence | exact H].
Qed.

Lemma prefix_tick_other (old : string) (c : ascii) (s : string) :
  c <> "`"%char -> prefix (String "`" old) (String c s) = false.
Proof.
  intros Hc. rewrite prefix_cons. destruct (ascii_dec "`" c); [congruence | reflexivity].
Qed.

Lemma remove_all_aux_app_no_ticks (old s1 s2 : string) :
  contains "`" s1 = false ->
  remove_all_aux (String "`" old) O (s1 ++ s2) = s1 ++ remove_all_aux (String "`" old) O s2.
Proof.
  induction s1 as [| c s1 IH]; intros H; [reflexivity |].
  apply contains_tick_cons in H. destruct H as [Hc H].
  change ((String c s1 ++ s2)%string) with (String c (s1 ++ s2)).
  cbn [remove_all_aux]. rewrite (prefix_tick_other old c (s1 ++ s2) Hc), (IH H).
  reflexivity.
Qed.

Lemma remove_all_no_ticks (old s : string) :
  contains "`" s = false -> remove_all (String "`" old) s = s.
Proof.
  intros H. unfold remove_all.
  rewrite <- (append_empty_r s) at 1.
  rewrite (remove_all_aux_app_no_ticks old s "" H). apply append_empty_r.
Qed.

(** An answer without any backtick reaches [json.loads] as [strip] leaves
    it. *)
Theorem clean_json_plain (raw_text : string) :
  contains "`" (strip raw_text) = false ->
  clean_json raw_text = strip raw_text.
Proof.
  intros H. unfold clean_json.
  rewrite (remove_all_no_ticks "``json" _ H). exact (remove_all_no_ticks "``" _ H).
Qed.

Lemma remove_json_fence (s : string) :
  remove_all_aux "```json" O ("```json" ++ s) = remove_all_aux "```json" O s.
Proof. cbn. rewrite prefix_empty. reflexivity. Qed.

Lemma remove_fence (s : string) :
  remove_all_aux "```" O ("```" ++ s) = remove_all_aux "```" O s.
Proof. cbn. rewrite prefix_empty. reflexivity. Qed.

Lemma keep_fence_without_json (c : ascii) (s : string) :
  c <> "`"%char ->
  prefix "json" (String c s) = false ->
  remove_all_aux "```json" O ("```" ++ String c s) =
    "```" ++ remove_all_aux "```json" O (String c s).
Proof.
  intros Hc Hjson.
  assert (Htick : forall t, prefix (String "`" t) (String c s) = false).
  { intros t. apply prefix_tick_other, Hc. }
  change ("```" ++ String c s) with (String "`" (String "`" (String "`" (String c s)))).
  cbn [remove_all_aux].
  rewrite (prefix_cons "`" "`"), (prefix_cons "`" "`"), (prefix_cons "`" "`").
  destruct (ascii_dec "`" "`") as [_ | H]; [| congruence].
  rewrite Hjson.
  rewrite (prefix_cons "`" "`"), (prefix_cons "`" "`").
  destruct (ascii_dec "`" "`") as [_ | H]; [| congruence].
  rewrite (Htick "json").
  rewrite (prefix_cons "`" "`").
  destruct (ascii_dec "`" "`") as [_ | H]; [| congruence].
  rewrite (Htick "`json"). reflexivity.
Qed.

Lemma prefix_json_fence (body : string) :
  prefix "json" body = false -> prefix "json" (body ++ "```") = false.
Proof.
  destruct body as [| c1 [| c2 [| c3 [| c4 body]]]]; cbn [append];
    rewrite ?prefix_cons, ?prefix_empty;
    repeat match goal with
           | |- context [ascii_dec ?a ?b] => destruct (ascii_dec a b)
           end;
    congruence.
Qed.

(** An answer wrapped in a markdown fence reaches [json.loads] without the
    fence when there is no backtick inside: with the word json after the
    opening fence, and also without it, unless the text inside starts with
    that word. *)
Theorem clean_json_fenced (raw_text body : string) :
  strip raw_text = "```json" ++ body ++ "```"
  \/ (strip raw_text = "```" ++ body ++ "```" /\ prefix "json" body = false) ->
  contains "`" body = false ->
  clean_json raw_text = body.
Proof.
  intros Hfence Hbody. unfold clean_json.
  assert (Hfirst : remove_all "```json" (strip raw_text) = "```" ++ body ++ "```"
                   \/ remove_all "```json" (strip raw_text) = body ++ "```").
  { destruct Hfence as [-> | [-> Hjson]]; unfold remove_all.
    - right. rewrite remove_json_fence.
      rewrite (remove_all_aux_app_no_ticks "``json" body "```" Hbody). reflexivity.
    - left. apply prefix_json_fence in Hjson.
      destruct body as [| c body]; [reflexivity |].
      pose proof (contains_tick_cons _ _ Hbody) as [Hc _].
      change ((String c body ++ "```")%string) with (String c (body ++ "```")) in *.
      rewrite (keep_fence_without_json c _ Hc Hjson).
      change (String c (body ++ "```")) with ((String c body ++ "```")%string).
      rewrite (remove_all_aux_app_no_ticks "``json" _ "```" Hbody). reflexivity. }
  destruct Hfirst as [-> | ->]; unfold remove_all; [rewrite remove_fence |];
    rewrite (remove_all_aux_app_no_ticks "``" body "```" Hbody);
    change (remove_all_aux "```" O "```") with EmptyString; apply append_empty_r.
Qed.

Lemma prefix_fence_ticks (s : string) :
  prefix "```" s = true <-> (3 <= ticks s)%nat.
Proof.
  destruct s as [| c1 [| c2 [| c3 s]]]; cbn [ticks];
    rewrite ?prefix_cons, ?prefix_empty;
    repeat match goal with
           | |- context [ascii_dec ?a ?b] => destruct (ascii_dec a b)
           end;
    cbn [prefix]; split; intros H; try discriminate; try reflexivity; try lia.
Qed.

Lemma ticks_drop_fence (s : string) :
  prefix "```" s = true -> ticks s = (3 + ticks (drop 3 s))%nat.
Proof.
  destruct s as [| c1 [| c2 [| c3 s]]]; cbn [ticks drop];
    rewrite ?prefix_cons, ?prefix_empty;
    repeat match goal with
           | |- context [ascii_dec ?a ?b] => destruct (ascii_dec a b)
           end;
    cbn [prefix]; intros H; try discriminate; reflexivity.
Qed.

Lemma remove_fences_ticks (s : string) :
  forall k : nat,
    (k <= 2)%nat ->
    contains "```" (remove_all_aux "```" k s) = false
    /\ ticks (remove_all_aux "```" k s) = (ticks (drop k s) mod 3)%nat.
Proof.
  induction s as [| c s IH]; intros k Hk.
  - destruct k; split; reflexivity.
  - destruct k as [| k].
    + cbn [remove_all_aux drop].
      destruct (prefix "```" (String c s)) eqn:Hp.
      * destruct (IH 2%nat (le_n 2)) as [Hc Ht].
        change (Nat.pred (String.length "```")) with 2%nat.
        split; [exact Hc |]. rewrite Ht, (ticks_drop_fence _ Hp).
        change (drop 3 (String c s)) with (drop 2 s).
        rewrite Nat.Div0.add_mod, Nat.Div0.mod_same, Nat.add_0_l, Nat.Div0.mod_mod.
        reflexivity.
      * destruct (IH 0%nat (Nat.le_0_l 2)) as [Hc Ht].
        change (drop 0 s) with s in Ht.
        assert (Hlt : (ticks (String c s) < 3)%nat).
        { destruct (Nat.lt_ge_cases (ticks (String c s)) 3) as [H | H]; [exact H |].
          apply prefix_fence_ticks in H. congruence. }
        assert (Hsame : ticks (String c (remove_all_aux "```" 0 s)) = ticks (String c s)).
        { cbn [ticks] in *. destruct (ascii_dec "`" c); [| reflexivity].
          rewrite Ht, Nat.mod_small; [reflexivity | lia]. }
        split.
        -- rewrite contains_cons, Hc, orb_false_r.
           destruct (prefix "```" (String c (remove_all_aux "```" 0 s))) eqn:Hq;
             [| reflexivity].
           apply prefix_fence_ticks in Hq. lia.
        -- rewrite Hsame, Nat.mod_small; [reflexivity | exact Hlt].
    + cbn [remove_all_aux drop]. apply IH. lia.
Qed.

(** Whatever the model wrote, the text handed to [json.loads] holds no
    markdown fence; an answer that still holds one after [strip], even
    inside a JSON string, is therefore not passed on as it is. *)
Theorem clean_json_has_no_fence (raw_text : string) :
  contains "```" (clean_json raw_text) = false
  /\ (contains "```" (strip raw_text) = true -> clean_json raw_text <> strip raw_text).
Proof.
  assert (H : contains "```" (clean_json raw_text) = false).
  { unfold clean_json, remove_all. apply remove_fences_ticks. lia. }
  split; [exact H |].
  intros Hin Heq. rewrite Heq in H. congruence.
Qed.

(** ** Computations that only show things *)

Lemma only_shows_ret {A} (a : A) : only_shows (ret a).
Proof. intros st. exists []. simpl. symmetry. apply show_nil. Qed.

Lemma only_shows_lift {A} (o : outcome A) : only_shows (lift o).
Proof. intros st. exists []. simpl. symmetry. apply show_nil. Qed.

Lemma only_shows_emit (e : event) : only_shows (emit e).
Proof. intros st. exists [e]. reflexivity. Qed.

Lemma only_shows_read_global {A} (name : string) (f : globals -> option A) :
  only_shows (read_global name f).
Proof.
  intros st. exists []. unfold read_global.
  destruct (f (vars st)); simpl; symmetry; apply show_nil.
Qed.

Lemma only_shows_bind {A B} (m : M A) (k : A -> M B) :
  only_shows m -> (forall a, only_shows (k a)) -> only_shows (bind m k).
Proof.
  intros Hm Hk st. unfold bind. destruct (Hm st) as [e1 H1].
  destruct (m st) as [[a | e] st1]; simpl in H1; subst st1.
  - destruct (Hk a (show st e1)) as [e2 H2]. exists (e1 ++ e2)%list.
    rewrite H2. apply show_show.
  - exists e1. reflexivity.
Qed.

Lemma only_shows_try {A} (body : M A) (caught : exn -> bool) (handler : exn -> M A) :
  only_shows body -> (forall e, only_shows (handler e)) ->
  only_shows (try_except body caught handler).
Proof.
  intros Hb Hh st. unfold try_except. destruct (Hb st) as [e1 H1].
  destruct (body st) as [[a | e] st1]; simpl in H1; subst st1.
  - exists e1. reflexivity.
  - destruct (caught e).
    + destruct (Hh e (show st e1)) as [e2 H2]. exists (e1 ++ e2)%list.
      rewrite H2. apply show_show.
    + exists e1. reflexivity.
Qed.

Lemma only_shows_for_each {A} (l : list A) (body : A -> M unit) :
  (forall x, only_shows (body x)) -> only_shows (for_each l body).
Proof.
  intros Hb. induction l as [| x l IH]; simpl.
  - apply only_shows_ret.
  - apply only_shows_bind; [apply Hb | intros _; exact IH].
Qed.

(** One step of a proof that a computation only shows things. *)
Ltac only_shows_step :=
  lazymatch goal with
  | |- only_shows (bind _ _) => apply only_shows_bind; [| intros ?]
  | |- only_shows (ret _) => apply only_shows_ret
  | |- only_shows (lift _) => apply only_shows_lift
  | |- only_shows (emit _) => apply only_shows_emit
  | |- only_shows (print _) => apply only_shows_emit
  | |- only_shows (display _) => apply only_shows_emit
  | |- only_shows (read_global _ _) => apply only_shows_read_global
  | |- only_shows (try_except _ _ _) => apply only_shows_try; [| intros ?]
  | |- only_shows (for_each _ _) => apply only_shows_for_each; intros ?
  | |- only_shows (if ?b then _ else _) => destruct b
  | |- only_shows (match ?x with _ => _ end) => destruct x
  end.

Lemma only_shows_parse_qc_response (model_response : pyval) :
  only_shows (parse_qc_response model_response).
Proof. unfold parse_qc_response. repeat only_shows_step. Qed.

Lemma only_shows_draw_bounding_boxes (base64_img : string) (objects : pyval) :
  only_shows (draw_bounding_boxes base64_img objects).
Proof. unfold draw_bounding_boxes, draw_box. repeat only_shows_step. Qed.

Lemma only_shows_display_qc_report (parsed : pyval) (b64 : string) (ref : option string) :
  only_shows (display_qc_report parsed b64 ref).
Proof.
  unfold display_qc_report, display_reference.
  repeat first [apply only_shows_draw_bounding_boxes | only_shows_step].
Qed.

(** ** Parsing *)

Lemma try_except_raise_inv {A} (body : M A) (caught : exn -> bool) (handler : exn -> M A)
    (st st' : state) (e : exn) :
  try_except body caught handler st = (Raise e, st') ->
  (body st = (Raise e, st') /\ caught e = false)
  \/ (exists e0 st0, body st = (Raise e0, st0) /\ caught e0 = true
                     /\ handler e0 st0 = (Raise e, st')).
Proof.
  unfold try_except. destruct (body st) as [[a | e0] st0].
  - discriminate.
  - destruct (caught e0) eqn:Hc.
    + intros H. right. exists e0, st0. repeat split; assumption.
    + intros [= -> ->]. left. split; [reflexivity | exact Hc].
Qed.

(** [parse_qc_response] lets neither a [KeyError] nor a [JSONDecodeError]
    out, whatever the response is, and it changes neither the globals nor
    the record of remote calls: it only prints. *)
Theorem parse_qc_response_contains_its_errors (model_response : pyval) (st : state) :
  (exists evs, snd (parse_qc_response model_response st) = show st evs)
  /\ forall e, fst (parse_qc_response model_response st) = Raise e ->
       exn_class_of e <> KeyError /\ exn_class_of e <> JSONDecodeError.
Proof.
  split; [apply only_shows_parse_qc_response |].
  intros e He.
  destruct (parse_qc_response model_response st) as [o st'] eqn:Hrun.
  simpl in He. subst o.
  unfold parse_qc_response in Hrun.
  destruct (negb (py_truthy model_response)); [discriminate Hrun |].
  apply try_except_raise_inv in Hrun.
  destruct Hrun as [[_ Hc] | (e0 & st0 & _ & _ & Hh)].
  - destruct (exn_class_of e); try discriminate Hc; split; discriminate.
  - discriminate Hh.
Qed.

(** A response whose text block, once cleaned, is JSON: [parse_qc_response]
    prints the heading and the decoded object, and returns the object. *)
Theorem parse_qc_response_decodes (model_response parsed : pyval) (raw_text : string)
    (st : state) :
  py_truthy model_response = true ->
  response_text model_response = Ok (PStr raw_text) ->
  json_loads (clean_json raw_text) = Ok parsed ->
  parse_qc_response model_response st =
    (Ok parsed,
     State (vars st)
       (shown st ++ [Print "✅ Parsed QC Output:"; Print (json_dumps (Some 2) parsed)])
       (calls st)).
Proof.
  intros Ht Htext Hloads.
  rewrite (parse_qc_response_try _ _ Ht).
  apply try_except_ok.
  rewrite (bind_lift_ok _ _ _ _ Htext).
  rewrite (bind_lift_ok _ (strip raw_text) _ _ eq_refl).
  rewrite (bind_lift_ok _ _ _ _ Hloads).
  unfold print.
  rewrite (bind_run _ _ _ _ _ (emit_run _ _)), (bind_run _ _ _ _ _ (emit_run _ _)), show_show.
  reflexivity.
Qed.

(** When the remote call or the decoding of its body fails, the client and
    the parser together print one line, the invocation error; the parser
    passes the missing response on as [None] without a message. *)
Theorem failed_call_is_reported_once (native_request : pyval) (model_id : string)
    (e : exn) (st : state) :
  obind (invoke_model (calls st) model_id (json_dumps None native_request)) json_loads
    = Raise e ->
  (model_response <- invoke_qc_model native_request model_id ;;
   parse_qc_response model_response) st =
    (Ok PNone,
     State (vars st)
       (shown st ++ [Print ("❌ Model invocation error: " ++ exn_str e)])
       (calls st ++ [(model_id, json_dumps None native_request)])).
Proof.
  intros Hfail. unfold bind.
  rewrite invoke_qc_model_run. cbv zeta. rewrite Hfail. reflexivity.
Qed.

(** ** The availability check *)

Lemma contains_unfold (sub s : string) :
  contains sub s =
    prefix sub s || match s with EmptyString => false | String _ s' => contains sub s' end.
Proof. destruct s; reflexivity. Qed.

Lemma prefix_append (a post : string) : prefix a (a ++ post) = true.
Proof.
  induction a as [| c a IH]; [apply prefix_empty |].
  change ((String c a ++ post)%string) with (String c (a ++ post)).
  rewrite prefix_cons. destruct (ascii_dec c c); [exact IH | congruence].
Qed.

Lemma prefix_inv (a : string) :
  forall s, prefix a s = true -> exists post, s = a ++ post.
Proof.
  induction a as [| c a IH]; intros s H.
  - exists s. reflexivity.
  - destruct s as [| c' s]; [discriminate H |].
    rewrite prefix_cons in H. destruct (ascii_dec c c') as [<- | _]; [| discriminate H].
    destruct (IH s H) as [post ->]. exists post. reflexivity.
Qed.

(** The test [sub in s] of the notebook is the occurrence of [sub] in [s]. *)
Lemma contains_occurs (sub s : string) : contains sub s = true <-> occurs sub s.
Proof.
  split.
  - induction s as [| c s IH]; rewrite contains_unfold; intros H.
    + rewrite orb_false_r in H. destruct (prefix_inv _ _ H) as [post Hs].
      exists "", post. exact Hs.
    + apply orb_true_iff in H. destruct H as [H | H].
      * destruct (prefix_inv _ _ H) as [post Hs]. exists "", post. exact Hs.
      * destruct (IH H) as (pre & post & ->). exists (String c pre), post. reflexivity.
  - intros (pre & post & ->). induction pre as [| c pre IH].
    + rewrite contains_unfold. change (("" ++ sub ++ post)%string) with ((sub ++ post)%string).
      rewrite prefix_append. reflexivity.
    + change ((String c pre ++ sub ++ post)%string) with (String c (pre ++ sub ++ post)).
      rewrite contains_cons, IH. apply orb_true_r.
Qed.

(** The availability check never raises and makes one call.  It prints
    that the model is activated when the call succeeds; when the call
    raises it prints the two lines of the hint if AccessDeniedException or
    the words is not enabled occur in the text of the exception, and the
    text of the exception otherwise. *)
Theorem check_model_enabled_outcomes (st : state) :
  exists lines : list event,
    check_model_enabled st =
      (Ok tt,
       State (vars st) (shown st ++ lines)
         (calls st ++ [(MODEL_ID, json_dumps None hello_request)]))
    /\ match invoke_model (calls st) MODEL_ID (json_dumps None hello_request) with
       | Ok _ => lines = [Print activated_message]
       | Raise e =>
           (occurs "AccessDeniedException" (exn_str e) \/ occurs "is not enabled" (exn_str e) ->
            lines = not_activated_hint)
           /\ (~ occurs "AccessDeniedException" (exn_str e)
               /\ ~ occurs "is not enabled" (exn_str e) ->
               lines = [Print ("❌ Error: " ++ exn_str e)])
       end.
Proof.
  destruct (invoke_model (calls st) MODEL_ID (json_dumps None hello_request))
    as [body | e] eqn:Hcall.
  - exists [Print activated_message]. split; [| reflexivity].
    unfold check_model_enabled. fold hello_request.
    apply try_except_ok.
    rewrite (bind_run _ _ st
               (State (vars st) (shown st)
                  (calls st ++ [(MODEL_ID, json_dumps None hello_request)])) body).
    + reflexivity.
    + unfold remote_invoke_model. rewrite Hcall. reflexivity.
  - rewrite (check_model_enabled_raise e st Hcall).
    destruct (contains "AccessDeniedException" (exn_str e)) eqn:Ha.
    + exists not_activated_hint. split; [reflexivity |]. split; [reflexivity |].
      intros [Hno _]. exfalso. apply Hno, contains_occurs, Ha.
    + destruct (contains "is not enabled" (exn_str e)) eqn:Hb.
      * exists not_activated_hint. split; [reflexivity |]. split; [reflexivity |].
        intros [_ Hno]. exfalso. apply Hno, contains_occurs, Hb.
      * exists [Print ("❌ Error: " ++ exn_str e)]. split; [reflexivity |].
        split; [| reflexivity].
        intros [H | H]; apply contains_occurs in H; congruence.
Qed.

(** ** Rendering *)

Lemma scaled_classes (box : pyval) (k : string) (v : pyval) (s : float) :
  py_getitem box k = Ok v ->
  (is_number v = false ->
   exists msg, scaled box k s = Raise (Exn TypeError msg))
  /\ (forall e, scaled box k s = Raise e ->
        exn_class_of e = TypeError \/ exn_class_of e = OverflowError).
Proof.
  intros Hv. unfold scaled. rewrite Hv. simpl obind. split.
  - destruct v; try discriminate; intros _; eexists; reflexivity.
  - intros e. destruct v; simpl; try (intros [= <-]; left; reflexivity); try discriminate.
    unfold float_of_int. destruct (Z.abs z <? float_limit); simpl; [discriminate |].
    intros [= <-]. right. reflexivity.
Qed.

(** A box with its four coordinates, one of which is not a number (a
    string, [None], a list or a dict): [draw_box] raises [TypeError], or
    [OverflowError] when an earlier coordinate is an integer beyond the
    floats, and draws nothing for that defect. *)
Theorem draw_box_rejects_non_numbers (sx sy : float) (obj box v1 v2 v3 v4 : pyval)
    (st : state) :
  py_getitem obj "bounding_box" = Ok box ->
  py_getitem box "x_min" = Ok v1 ->
  py_getitem box "y_min" = Ok v2 ->
  py_getitem box "x_max" = Ok v3 ->
  py_getitem box "y_max" = Ok v4 ->
  is_number v1 && is_number v2 && is_number v3 && is_number v4 = false ->
  exists e : exn,
    draw_box sx sy obj st = (Raise e, st)
    /\ (exn_class_of e = TypeError \/ exn_class_of e = OverflowError).
Proof.
  intros Hbox H1 H2 H3 H4 Hbad.
  destruct (scaled_classes box "x_min" v1 sx H1) as [T1 C1].
  destruct (scaled_classes box "y_min" v2 sy H2) as [T2 C2].
  destruct (scaled_classes box "x_max" v3 sx H3) as [T3 C3].
  destruct (scaled_classes box "y_max" v4 sy H4) as [T4 C4].
  unfold draw_box. rewrite (bind_lift_ok _ _ _ _ Hbox).
  destruct (scaled box "x_min" sx) as [x0 | e] eqn:E1.
  2:{ exists e. split; [reflexivity | apply C1; reflexivity]. }
  rewrite (bind_lift_ok _ x0 _ _ eq_refl).
  destruct (scaled box "y_min" sy) as [y0 | e] eqn:E2.
  2:{ exists e. split; [reflexivity | apply C2; reflexivity]. }
  rewrite (bind_lift_ok _ y0 _ _ eq_refl).
  destruct (scaled box "x_max" sx) as [x1 | e] eqn:E3.
  2:{ exists e. split; [reflexivity | apply C3; reflexivity]. }
  rewrite (bind_lift_ok _ x1 _ _ eq_refl).
  destruct (scaled box "y_max" sy) as [y1 | e] eqn:E4.
  2:{ exists e. split; [reflexivity | apply C4; reflexivity]. }
  exfalso.
  destruct (is_number v1); [| destruct (T1 eq_refl); discriminate].
  destruct (is_number v2); [| destruct (T2 eq_refl); discriminate].
  destruct (is_number v3); [| destruct (T3 eq_refl); discriminate].
  destruct (is_number v4); [| destruct (T4 eq_refl); discriminate].
  discriminate Hbad.
Qed.

Lemma for_each_app {A} (l1 l2 : list A) (body : A -> M unit) (st : state) :
  for_each (l1 ++ l2) body st = (for_each l1 body ;; for_each l2 body) st.
Proof.
  revert st. induction l1 as [| x l1 IH]; intros st; [reflexivity |].
  simpl. unfold bind. destruct (body x st) as [[[] | e] st1]; [| reflexivity].
  rewrite IH. reflexivity.
Qed.

Lemma py_get_getitem (v : pyval) (k : string) (l : list pyval) :
  py_get v k = Ok (PList l) -> py_getitem v k = Ok (PList l).
Proof.
  destruct v; try discriminate. simpl. destruct (lookup k d); [trivial | discriminate].
Qed.

(** A list of defects in which one entry has no bounding box: the boxes of
    the defects before it are drawn, then the exception of the missing box
    leaves [display_qc_report]; the figure is not shown and no report is
    printed. *)
Theorem display_qc_report_stops_at_missing_box (parsed obj : pyval)
    (good rest : list pyval) (ds : list Defect) (b64 : string) (im : image)
    (ref : option string) (evs : list event) (e : exn) (st : state) :
  py_get parsed "objects" = Ok (PList (good ++ obj :: rest)) ->
  defects_of good = Some ds ->
  py_getitem obj "bounding_box" = Raise e ->
  reference_preview ref = Ok evs ->
  open_base64 b64 = Ok im ->
  display_qc_report parsed b64 ref st =
    (Raise e,
     State (vars st)
       (shown st ++ evs
          ++ [Print "🧾 QC Image with Defects:"; Subplots (10, 10); Imshow im]
          ++ flat_map (defect_artists (scale_x im) (scale_y im)) ds)
       (calls st)).
Proof.
  intros Hget Hgood Hbox Href Him.
  pose proof (py_get_getitem _ _ _ Hget) as Hitem.
  unfold open_base64 in Him.
  destruct (b64decode b64) as [data |] eqn:Hdata; [| discriminate]. simpl in Him.
  unfold display_qc_report.
  rewrite (bind_run _ _ _ _ _ (display_reference_run _ _ _ Href)).
  rewrite (bind_lift_ok _ _ _ _ Hget).
  assert (Htruthy : py_truthy (PList (good ++ obj :: rest)) = true).
  { destruct good; reflexivity. }
  rewrite Htruthy.
  apply bind_raise.
  unfold print. rewrite (bind_run _ _ _ _ _ (emit_run _ _)).
  rewrite (bind_lift_ok _ _ _ _ Hitem).
  apply bind_raise.
  unfold draw_bounding_boxes.
  rewrite (bind_lift_ok _ _ _ _ Hdata), (bind_lift_ok _ _ _ _ Him).
  unfold scale_x, scale_y. destruct (im_size im) as [w h]. simpl fst. simpl snd.
  rewrite (bind_run _ _ _ _ _ (emit_run _ _)), (bind_run _ _ _ _ _ (emit_run _ _)).
  rewrite (bind_lift_ok _ (good ++ obj :: rest)%list _ _ eq_refl).
  apply bind_raise.
  rewrite for_each_app.
  rewrite (bind_run _ _ _ _ _ (for_each_draw_box _ _ good ds _ Hgood)).
  simpl for_each. apply bind_raise.
  unfold draw_box. rewrite (bind_lift_raise _ _ _ _ Hbox).
  rewrite !show_show. reflexivity.
Qed.

(** Without a truthy [objects]: the key is absent, or its value is null, an
    empty list, dict or string, zero or false.  [display_qc_report] then
    takes the branch without defects and reports OK. *)
Theorem display_qc_report_without_objects (parsed objects description : pyval)
    (b64 : string) (im resized : image) (ref : option string) (evs : list event)
    (st : state) :
  py_get parsed "objects" = Ok objects ->
  py_truthy objects = false ->
  py_getitem parsed "text" = Ok description ->
  reference_preview ref = Ok evs ->
  open_base64 b64 = Ok im ->
  half_size im = Ok resized ->
  display_qc_report parsed b64 ref st =
    (Ok tt,
     State (vars st)
       (shown st ++ evs ++
          [Print "🧾 QC Image:"; Display resized;
           Print (nl ++ "🧾 Quality Control Report:");
           Print ("QC: OK" ++ nl ++ nl ++ "Description:" ++ nl ++ py_str description
                    ++ nl ++ nl ++ "No defects were detected." ++ nl)])
       (calls st)).
Proof.
  intros Hget Hfalsy Htext Href Him Hhalf.
  unfold open_base64 in Him.
  destruct (b64decode b64) as [data |] eqn:Hdata; [| discriminate]. simpl in Him.
  unfold half_size in Hhalf.
  unfold display_qc_report.
  rewrite (bind_run _ _ _ _ _ (display_reference_run _ _ _ Href)).
  rewrite (bind_lift_ok _ _ _ _ Hget), Hfalsy.
  rewrite (bind_run _ (fun report_text => _) _
             (show (show st evs) [Print "🧾 QC Image:"; Display resized])
             ("QC: OK" ++ nl ++ nl ++ "Description:" ++ nl ++ py_str description
                ++ nl ++ nl ++ "No defects were detected." ++ nl)).
  - unfold print. rewrite (bind_run _ _ _ _ _ (emit_run _ _)), emit_run, !show_show.
    reflexivity.
  - rewrite (bind_lift_ok _ _ _ _ Hdata), (bind_lift_ok _ _ _ _ Him).
    destruct (im_size im) as [w h].
    rewrite (bind_lift_ok _ _ _ _ Hhalf).
    unfold print, display.
    rewrite (bind_run _ _ _ _ _ (emit_run _ _)), (bind_run _ _ _ _ _ (emit_run _ _)).
    rewrite (bind_lift_ok _ _ _ _ Htext), show_show. reflexivity.
Qed.

(** Defects but no [text]: every box is drawn and the figure is shown, then
    the exception of the missing description leaves [display_qc_report]
    before any report is printed. *)
Theorem display_qc_report_without_text (parsed : pyval) (l : list pyval) (d : Defect)
    (ds : list Defect) (b64 : string) (im : image) (ref : option string)
    (evs : list event) (e : exn) (st : state) :
  py_get parsed "objects" = Ok (PList l) ->
  defects_of l = Some (d :: ds) ->
  py_getitem parsed "text" = Raise e ->
  reference_preview ref = Ok evs ->
  open_base64 b64 = Ok im ->
  display_qc_report parsed b64 ref st =
    (Raise e,
     State (vars st)
       (shown st ++ evs
          ++ [Print "🧾 QC Image with Defects:"; Subplots (10, 10); Imshow im]
          ++ flat_map (defect_artists (scale_x im) (scale_y im)) (d :: ds)
          ++ [AxisOff; Show])
       (calls st)).
Proof.
  intros Hget Hds Htext Href Him.
  pose proof (py_get_getitem _ _ _ Hget) as Hitem.
  destruct l as [| obj l]; [discriminate Hds |].
  assert (Hfirst : exists q, py_getitem obj "qc" = Ok q).
  { simpl in Hds. destruct (defect_of obj) as [d0 |] eqn:Ed; [| discriminate].
    destruct (defect_of_inv _ _ Ed) as (_ & _ & _ & _ & _ & Hq & _). eexists. exact Hq. }
  destruct Hfirst as [q Hq].
  unfold display_qc_report.
  rewrite (bind_run _ _ _ _ _ (display_reference_run _ _ _ Href)).
  rewrite (bind_lift_ok _ _ _ _ Hget). cbn [py_truthy].
  apply bind_raise.
  unfold print. rewrite (bind_run _ _ _ _ _ (emit_run _ _)).
  rewrite (bind_lift_ok _ _ _ _ Hitem).
  rewrite (bind_run _ _ _ _ _ (draw_bounding_boxes_defects _ _ _ _ _ Him Hds)).
  rewrite (bind_lift_ok _ _ _ _ Hitem).
  rewrite (bind_lift_ok _ obj _ _ eq_refl).
  rewrite (bind_lift_ok _ _ _ _ Hq).
  rewrite (bind_lift_raise _ _ _ _ Htext).
  rewrite !show_show. reflexivity.
Qed.

(** The report of a run with defects, in full: the verdict of the first
    defect, the description, and one entry per defect in the order of the
    answer, with its name, colour, verdict, reason and the coordinates as
    the model gave them (not scaled). *)
Theorem display_qc_report_lists_every_defect (parsed : pyval) (r : DefectReport)
    (d : Defect) (ds : list Defect) (b64 : string) (im : image) (ref : option string)
    (evs : list event) (st : state) :
  report_of parsed = Some r ->
  objects r = d :: ds ->
  reference_preview ref = Ok evs ->
  open_base64 b64 = Ok im ->
  exists before : list event,
    display_qc_report parsed b64 ref st =
      (Ok tt,
       State (vars st)
         (shown st ++ before ++
            [Print ("QC: " ++ qc d ++ nl ++ nl ++ "Description:" ++ nl ++ text r
                      ++ nl ++ nl ++ "Defects:"
                      ++ String.concat "" (map defect_text (d :: ds)))])
         (calls st)).
Proof.
  intros Hr Hobjs Href Him.
  exists (evs ++ [Print "🧾 QC Image with Defects:"; Subplots (10, 10); Imshow im]
              ++ flat_map (defect_artists (scale_x im) (scale_y im)) (d :: ds)
              ++ [AxisOff; Show; Print (nl ++ "🧾 Quality Control Report:")])%list.
  rewrite (display_qc_report_defects _ _ _ _ _ _ _ _ st Hr Hobjs Href Him).
  unfold show, defects_report. rewrite <- !app_assoc. reflexivity.
Qed.

(** Rendering has no other effect than showing: [display_qc_report] and
    [draw_bounding_boxes] change no global and make no remote call,
    whatever they are given and whether or not they raise. *)
Theorem rendering_only_shows (parsed objects : pyval) (b64 : string)
    (ref : option string) (st : state) :
  (exists evs, snd (display_qc_report parsed b64 ref st) =
                 State (vars st) (shown st ++ evs) (calls st))
  /\ (exists evs, snd (draw_bounding_boxes b64 objects st) =
                    State (vars st) (shown st ++ evs) (calls st)).
Proof.
  split; [apply only_shows_display_qc_report | apply only_shows_draw_bounding_boxes].
Qed.

(** The reference image comes first.  When it is given and cannot be
    decoded, opened or resized, [display_qc_report] ends with that
    exception before it looks at the answer: nothing is shown, whatever
    the answer is. *)
Theorem display_qc_report_bad_reference (parsed : pyval) (b64 s : string) (e : exn)
    (st : state) :
  reference_preview (Some s) = Raise e ->
  display_qc_report parsed b64 (Some s) st = (Raise e, st).
Proof.
  intros H. unfold display_qc_report. apply bind_raise.
  unfold reference_preview, open_base64, half_size in H. unfold display_reference.
  destruct (negb (String.eqb s "")); [| discriminate H].
  destruct (b64decode s) as [data | e1] eqn:Hdata; simpl obind in H.
  2:{ injection H as ->. apply bind_lift_raise. reflexivity. }
  rewrite (bind_lift_ok _ data _ _ eq_refl).
  destruct (Image_open_bytes data) as [im | e1] eqn:Him; simpl obind in H.
  2:{ injection H as ->. apply bind_lift_raise. reflexivity. }
  rewrite (bind_lift_ok _ im _ _ eq_refl).
  destruct (im_size im) as [w h].
  destruct (Image_resize im (w / 2, h / 2)) as [resized | e1] eqn:Hres; simpl obind in H.
  - discriminate H.
  - injection H as ->. apply bind_lift_raise. reflexivity.
Qed.

(** ** Loading *)

Lemma get_png_base64_from_file_state (filepath : string) (max_size : Z * Z) (st : state) :
  snd (get_png_base64_from_file filepath max_size st) = st.
Proof.
  unfold get_png_base64_from_file, bind, lift, ret.
  destruct (Image_open_file filepath) as [im |]; [| reflexivity].
  destruct (Image_thumbnail im max_size) as [t |]; [| reflexivity].
  destruct (Image_save_png t); reflexivity.
Qed.

Lemma preview_run (w : widget) (name : string) (f : globals -> option image)
    (im : image) (st : state) :
  f (vars st) = Some im ->
  with_output w
    (emit (ClearOutput w) ;;
     img <- read_global name f ;;
     let '(x, y) := im_size img in
     small <- lift (Image_resize img (x / 3, y / 3)) ;;
     emit (WidgetDisplay w small)) st =
    (Ok tt, show st (preview_events w im)).
Proof.
  intros Hf. unfold with_output, preview_events, third_size.
  rewrite (bind_run _ _ _ _ _ (emit_run _ _)).
  rewrite (bind_run _ _ _ (show st [ClearOutput w]) im).
  2:{ unfold read_global. simpl. rewrite Hf. reflexivity. }
  destruct (im_size im) as [x y].
  destruct (Image_resize im (x / 3, y / 3)) as [small | e] eqn:Hres.
  - rewrite (bind_lift_ok _ small _ _ eq_refl), emit_run, show_show. reflexivity.
  - rewrite (bind_lift_raise _ e _ _ eq_refl), emit_run, show_show. reflexivity.
Qed.

Lemma load_qc_image_run (im thumb : image) (png : bytes) (st : state) :
  Image_open_file (qc_image_path (vars st)) = Ok im ->
  Image_thumbnail im default_max_size = Ok thumb ->
  Image_save_png thumb = Ok png ->
  load_qc_image st =
    (Ok tt,
     State (assign_qc (vars st) (b64encode png) png thumb)
       (shown st ++ preview_events qc_display thumb) (calls st)).
Proof.
  intros Ho Ht Hs. unfold load_qc_image.
  rewrite (bind_run _ _ _ _ _ (get_vars_run st)).
  rewrite (bind_run _ _ _ _ _ (get_png_base64_from_file_run _ _ _ _ _ st Ho Ht Hs)).
  rewrite (bind_run _ _ st
             (State (assign_qc (vars st) (b64encode png) png thumb) (shown st) (calls st))
             tt eq_refl).
  rewrite (preview_run qc_display "img" img thumb); reflexivity.
Qed.

Lemma load_ref_image_run (im thumb : image) (png : bytes) (st : state) :
  Image_open_file (ref_image_path (vars st)) = Ok im ->
  Image_thumbnail im default_max_size = Ok thumb ->
  Image_save_png thumb = Ok png ->
  load_ref_image st =
    (Ok tt,
     State (assign_ref (vars st) (b64encode png) png thumb)
       (shown st ++ preview_events ref_display thumb) (calls st)).
Proof.
  intros Ho Ht Hs. unfold load_ref_image.
  rewrite (bind_run _ _ _ _ _ (get_vars_run st)).
  rewrite (bind_run _ _ _ _ _ (get_png_base64_from_file_run _ _ _ _ _ st Ho Ht Hs)).
  rewrite (bind_run _ _ st
             (State (assign_ref (vars st) (b64encode png) png thumb) (shown st) (calls st))
             tt eq_refl).
  rewrite (preview_run ref_display "ref_img" ref_img thumb); reflexivity.
Qed.

(** A load that fails, because the file cannot be opened, reduced or
    written as PNG, leaves every global as it was: an image cached by an
    earlier load stays in place.  Nothing is shown. *)
Theorem failed_load_keeps_the_cache (e : exn) (st : state) :
  Image_open_file (qc_image_path (vars st)) = Raise e
  \/ (exists im,
        Image_open_file (qc_image_path (vars st)) = Ok im
        /\ (Image_thumbnail im default_max_size = Raise e
            \/ exists thumb,
                 Image_thumbnail im default_max_size = Ok thumb
                 /\ Image_save_png thumb = Raise e)) ->
  load_qc_image st = (Raise e, st).
Proof.
  intros H. unfold load_qc_image.
  rewrite (bind_run _ _ _ _ _ (get_vars_run st)).
  apply bind_raise. unfold get_png_base64_from_file.
  destruct H as [Ho | (im & Ho & [Ht | (thumb & Ht & Hs)])].
  - apply bind_lift_raise, Ho.
  - rewrite (bind_lift_ok _ _ _ _ Ho). apply bind_lift_raise, Ht.
  - rewrite (bind_lift_ok _ _ _ _ Ho), (bind_lift_ok _ _ _ _ Ht).
    apply bind_lift_raise, Hs.
Qed.

(** A successful [load_qc_image]: the three globals of the subject image
    hold the thumbnail, its PNG bytes and the base64 of those bytes; the
    globals of the reference image, the paths and the prompts are
    untouched; the widget is cleared and shows the image at a third of its
    size. *)
Theorem load_qc_image_fills_the_cache (im thumb small : image) (png : bytes) (st : state) :
  Image_open_file (qc_image_path (vars st)) = Ok im ->
  Image_thumbnail im default_max_size = Ok thumb ->
  Image_save_png thumb = Ok png ->
  third_size thumb = Ok small ->
  exists st' : state,
    load_qc_image st = (Ok tt, st')
    /\ img (vars st') = Some thumb
    /\ image_data (vars st') = Some png
    /\ base64_image (vars st') = Some (b64encode png)
    /\ ref_img (vars st') = ref_img (vars st)
    /\ reference_image_data (vars st') = reference_image_data (vars st)
    /\ base64_reference_image (vars st') = base64_reference_image (vars st)
    /\ same_settings (vars st) (vars st')
    /\ shown st' = (shown st ++ [ClearOutput qc_display; WidgetDisplay qc_display small])%list
    /\ calls st' = calls st.
Proof.
  intros Ho Ht Hs Hsmall. eexists. split.
  - apply (load_qc_image_run im thumb png st Ho Ht Hs).
  - unfold preview_events. rewrite Hsmall. simpl. repeat split.
Qed.

(** The preview is not essential: when the thumbnail cannot be resized for
    the widget, the traceback is shown in the widget and [load_qc_image]
    still ends normally with the image in the cache. *)
Theorem failed_preview_does_not_stop_the_load (im thumb : image) (png : bytes) (e : exn)
    (st : state) :
  Image_open_file (qc_image_path (vars st)) = Ok im ->
  Image_thumbnail im default_max_size = Ok thumb ->
  Image_save_png thumb = Ok png ->
  third_size thumb = Raise e ->
  load_qc_image st =
    (Ok tt,
     State (assign_qc (vars st) (b64encode png) png thumb)
       (shown st ++ [ClearOutput qc_display; WidgetTraceback qc_display e])
       (calls st)).
Proof.
  intros Ho Ht Hs He.
  rewrite (load_qc_image_run im thumb png st Ho Ht Hs).
  unfold preview_events. rewrite He. reflexivity.
Qed.

(** ** The pipeline as a whole *)

Lemma same_settings_refl (g : globals) : same_settings g g.
Proof. repeat split. Qed.

Lemma same_settings_trans (a b c : globals) :
  same_settings a b -> same_settings b c -> same_settings a c.
Proof.
  unfold same_settings. intros (H1 & H2 & H3 & H4) (K1 & K2 & K3 & K4).
  repeat split; congruence.
Qed.

Lemma grows_show (st : state) (evs : list event) : grows 0 st (show st evs).
Proof.
  split; [exists evs; reflexivity |]. split; [| apply same_settings_refl].
  exists []. simpl. rewrite app_nil_r. repeat split; constructor.
Qed.

Lemma grows_trans (n k : nat) (a b c : state) :
  grows n a b -> grows k b c -> grows (n + k) a c.
Proof.
  intros ([e1 H1] & (c1 & C1 & L1 & F1) & S1) ([e2 H2] & (c2 & C2 & L2 & F2) & S2).
  split; [exists (e1 ++ e2)%list; rewrite H2, H1, app_assoc; reflexivity |].
  split; [| exact (same_settings_trans _ _ _ S1 S2)].
  exists (c1 ++ c2)%list. rewrite C2, C1, app_assoc. split; [reflexivity |].
  split; [rewrite length_app; lia | apply Forall_app; split; assumption].
Qed.

Lemma grows_le (n k : nat) (a b : state) : (n <= k)%nat -> grows n a b -> grows k a b.
Proof.
  intros Hle (H1 & (cs & C & Hlen & F) & S).
  split; [exact H1 |]. split; [| exact S].
  exists cs. repeat split; [exact C | lia | exact F].
Qed.

Lemma bounded_bind (n k : nat) {A B} (m : M A) (f : A -> M B) :
  bounded n m -> (forall a, bounded k (f a)) -> bounded (n + k) (bind m f).
Proof.
  intros Hm Hf st. unfold bind. specialize (Hm st).
  destruct (m st) as [[a | e] st1]; simpl in Hm.
  - exact (grows_trans _ _ _ _ _ Hm (Hf a st1)).
  - simpl. apply (grows_le n); [lia | exact Hm].
Qed.

Lemma only_shows_bounded {A} (m : M A) : only_shows m -> bounded 0 m.
Proof. intros H st. destruct (H st) as [evs ->]. apply grows_show. Qed.

Lemma bounded_loader (w : widget) (path : globals -> string)
    (assign : globals -> string -> bytes -> image -> globals)
    (body : M unit) :
  (forall g b64 raw preview, same_settings g (assign g b64 raw preview)) ->
  only_shows body ->
  bounded 0
    (g <- get_vars ;;
     '(b64, raw, preview) <- get_png_base64_from_file (path g) default_max_size ;;
     set_vars (assign g b64 raw preview) ;;
     with_output w body).
Proof.
  intros Hassign Hbody st.
  rewrite (bind_run _ _ _ _ _ (get_vars_run st)).
  unfold bind at 1.
  pose proof (get_png_base64_from_file_state (path (vars st)) default_max_size st) as Hst.
  destruct (get_png_base64_from_file (path (vars st)) default_max_size st)
    as [[[[b64 raw] preview] | e] st1]; simpl in Hst; subst st1.
  2:{ simpl. rewrite <- (show_nil st) at 2. apply grows_show. }
  rewrite (bind_run _ _ st
             (State (assign (vars st) b64 raw preview) (shown st) (calls st)) tt eq_refl).
  unfold with_output.
  destruct (Hbody (State (assign (vars st) b64 raw preview) (shown st) (calls st)))
    as [evs Hevs].
  destruct (body (State (assign (vars st) b64 raw preview) (shown st) (calls st)))
    as [[[] | e] st2]; simpl in Hevs; subst st2; simpl.
  - split; [exists evs; reflexivity |]. split; [| apply Hassign].
    exists []. simpl. rewrite app_nil_r. repeat split; constructor.
  - split; [exists (evs ++ [WidgetTraceback w e])%list; simpl; rewrite app_assoc; reflexivity |].
    split; [| apply Hassign].
    exists []. simpl. rewrite app_nil_r. repeat split; constructor.
Qed.

Lemma bounded_load_qc_image : bounded 0 load_qc_image.
Proof.
  apply (bounded_loader qc_display qc_image_path assign_qc).
  - intros. repeat split.
  - repeat only_shows_step.
Qed.

Lemma bounded_load_ref_image : bounded 0 load_ref_image.
Proof.
  apply (bounded_loader ref_display ref_image_path assign_ref).
  - intros. repeat split.
  - repeat only_shows_step.
Qed.

Lemma bounded_invoke_qc_model (native_request : pyval) :
  bounded 1 (invoke_qc_model native_request MODEL_ID).
Proof.
  intros st. rewrite invoke_qc_model_run. cbv zeta.
  destruct (obind (invoke_model (calls st) MODEL_ID (json_dumps None native_request))
              json_loads); simpl;
    (split; [eexists; reflexivity |]; split; [| apply same_settings_refl];
     eexists; split; [reflexivity |]; split; [simpl; lia | repeat constructor]).
Qed.

Lemma bounded_run_qc_full_pipeline (qc_path ref_path : string) :
  bounded 1 (run_qc_full_pipeline qc_path ref_path).
Proof.
  unfold run_qc_full_pipeline.
  apply (bounded_bind 0 1); [apply bounded_load_qc_image | intros _].
  apply (bounded_bind 0 1); [apply bounded_load_ref_image | intros _].
  apply (bounded_bind 0 1);
    [apply only_shows_bounded, only_shows_read_global | intros image_data].
  apply (bounded_bind 0 1).
  { intros st. simpl. rewrite <- (show_nil st) at 2. apply grows_show. }
  intros g.
  apply (bounded_bind 0 1);
    [apply only_shows_bounded, only_shows_read_global | intros reference_image_data].
  apply (bounded_bind 1 0); [apply bounded_invoke_qc_model | intros model_response].
  apply only_shows_bounded.
  repeat first [apply only_shows_parse_qc_response
               | apply only_shows_display_qc_report
               | only_shows_step].
Qed.

(** Whatever the files, the endpoint and the answer are, and whether it
    ends normally or with an exception, a run of the pipeline makes at
    most one remote call, to [MODEL_ID]; it only adds to what is shown; and
    it leaves the two paths, the system prompt and the instruction as they
    were. *)
Theorem run_qc_full_pipeline_calls_at_most_once (qc_path ref_path : string) (st : state) :
  (exists evs,
     shown (snd (run_qc_full_pipeline qc_path ref_path st)) = (shown st ++ evs)%list)
  /\ (calls (snd (run_qc_full_pipeline qc_path ref_path st)) = calls st
      \/ exists body,
           calls (snd (run_qc_full_pipeline qc_path ref_path st))
           = (calls st ++ [(MODEL_ID, body)])%list)
  /\ same_settings (vars st) (vars (snd (run_qc_full_pipeline qc_path ref_path st))).
Proof.
  destruct (bounded_run_qc_full_pipeline qc_path ref_path st)
    as (Hshown & (cs & Hcalls & Hlen & Hall) & Hsame).
  split; [exact Hshown |]. split; [| exact Hsame].
  destruct cs as [| [id body] [| c cs]].
  - left. rewrite Hcalls. apply app_nil_r.
  - right. exists body. inversion Hall as [| ? ? Hid _]. simpl in Hid. subst id. exact Hcalls.
  - simpl in Hlen. lia.
Qed.

Lemma loads_run (im_qc thumb_qc im_ref thumb_ref : image) (png_qc png_ref : bytes)
    (st : state) :
  Image_open_file (qc_image_path (vars st)) = Ok im_qc ->
  Image_thumbnail im_qc default_max_size = Ok thumb_qc ->
  Image_save_png thumb_qc = Ok png_qc ->
  Image_open_file (ref_image_path (vars st)) = Ok im_ref ->
  Image_thumbnail im_ref default_max_size = Ok thumb_ref ->
  Image_save_png thumb_ref = Ok png_ref ->
  (load_qc_image ;; load_ref_image) st =
    (Ok tt,
     State (loaded (vars st) png_qc thumb_qc png_ref thumb_ref)
       (shown st ++ preview_events qc_display thumb_qc
          ++ preview_events ref_display thumb_ref)
       (calls st)).
Proof.
  intros Ho Ht Hs Ho' Ht' Hs'.
  rewrite (bind_run _ _ _ _ _ (load_qc_image_run _ _ _ st Ho Ht Hs)).
  rewrite (load_ref_image_run im_ref thumb_ref png_ref); try assumption.
  simpl. rewrite <- app_assoc. reflexivity.
Qed.

Lemma run_qc_full_pipeline_loaded (qc_path ref_path : string)
    (im_qc thumb_qc im_ref thumb_ref : image) (png_qc png_ref : bytes) (st : state) :
  Image_open_file (qc_image_path (vars st)) = Ok im_qc ->
  Image_thumbnail im_qc default_max_size = Ok thumb_qc ->
  Image_save_png thumb_qc = Ok png_qc ->
  Image_open_file (ref_image_path (vars st)) = Ok im_ref ->
  Image_thumbnail im_ref default_max_size = Ok thumb_ref ->
  Image_save_png thumb_ref = Ok png_ref ->
  run_qc_full_pipeline qc_path ref_path st =
    (model_response <-
       invoke_qc_model
         (build_qc_request png_qc (instruction (vars st)) (default_system_prompt (vars st))
            (Some png_ref))
         MODEL_ID ;;
     parsed_output <- parse_qc_response model_response ;;
     display_qc_report parsed_output (b64encode png_qc) (Some (b64encode png_ref)))
      (State (loaded (vars st) png_qc thumb_qc png_ref thumb_ref)
         (shown st ++ preview_events qc_display thumb_qc
            ++ preview_events ref_display thumb_ref)
         (calls st)).
Proof.
  intros Ho Ht Hs Ho' Ht' Hs'.
  pose proof (loads_run _ _ _ _ _ _ st Ho Ht Hs Ho' Ht' Hs') as Hloads.
  unfold run_qc_full_pipeline. unfold bind at 1 in Hloads.
  unfold bind at 1.
  destruct (load_qc_image st) as [[[] | e] st1]; [| discriminate Hloads].
  rewrite (bind_run _ _ _ _ _ Hloads).
  unfold bind at 1. unfold read_global at 1. cbn [vars loaded image_data].
  unfold bind at 1. unfold get_vars at 1. cbn [vars].
  unfold bind at 1. unfold read_global at 1. cbn [vars loaded reference_image_data].
  cbn [vars loaded instruction default_system_prompt].
  unfold bind. rewrite !invoke_qc_model_run. cbv zeta.
  set (after := State _ _ _).
  destruct (obind (invoke_model (calls after) MODEL_ID _) json_loads) as [model_response | e].
  - set (st2 := State (vars after) _ _).
    destruct (only_shows_parse_qc_response model_response st2) as [evs Hevs].
    destruct (parse_qc_response model_response st2) as [[parsed | e] st3]; [| reflexivity].
    simpl in Hevs. subst st3. reflexivity.
  - set (st2 := State (vars after) _ _).
    destruct (only_shows_parse_qc_response PNone st2) as [evs Hevs].
    destruct (parse_qc_response PNone st2) as [[parsed | e'] st3]; [| reflexivity].
    simpl in Hevs. subst st3. reflexivity.
Qed.

(** A complete run.  Both files load, the endpoint answers, the answer is
    a report with at least one defect: the pipeline shows the two
    previews, the line of the client, what the parser prints, the
    reference image and the annotated image, and ends with the report.  The
    request it sent carries the PNG bytes of the two thumbnails with the
    instruction and the system prompt of the globals, and the images it
    draws on are decoded from the base64 of the same bytes. *)
Theorem run_qc_full_pipeline_reports (qc_path ref_path : string)
    (im_qc thumb_qc im_ref thumb_ref im : image) (png_qc png_ref : bytes)
    (model_response parsed : pyval) (raw_text : string) (r : DefectReport) (d : Defect)
    (ds : list Defect) (evs : list event) (st : state) :
  Image_open_file (qc_image_path (vars st)) = Ok im_qc ->
  Image_thumbnail im_qc default_max_size = Ok thumb_qc ->
  Image_save_png thumb_qc = Ok png_qc ->
  Image_open_file (ref_image_path (vars st)) = Ok im_ref ->
  Image_thumbnail im_ref default_max_size = Ok thumb_ref ->
  Image_save_png thumb_ref = Ok png_ref ->
  obind
    (invoke_model (calls st) MODEL_ID
       (json_dumps None
          (build_qc_request png_qc (instruction (vars st)) (default_system_prompt (vars st))
             (Some png_ref))))
    json_loads = Ok model_response ->
  py_truthy model_response = true ->
  response_text model_response = Ok (PStr raw_text) ->
  json_loads (clean_json raw_text) = Ok parsed ->
  report_of parsed = Some r ->
  objects r = d :: ds ->
  reference_preview (Some (b64encode png_ref)) = Ok evs ->
  open_base64 (b64encode png_qc) = Ok im ->
  run_qc_full_pipeline qc_path ref_path st =
    (Ok tt,
     State (loaded (vars st) png_qc thumb_qc png_ref thumb_ref)
       (shown st
          ++ preview_events qc_display thumb_qc
          ++ preview_events ref_display thumb_ref
          ++ [Print "✅ Inference completed successfully.";
              Print "✅ Parsed QC Output:";
              Print (json_dumps (Some 2) parsed)]
          ++ evs
          ++ [Print "🧾 QC Image with Defects:"; Subplots (10, 10); Imshow im]
          ++ flat_map (defect_artists (scale_x im) (scale_y im)) (d :: ds)
          ++ [AxisOff; Show;
              Print (nl ++ "🧾 Quality Control Report:");
              Print (defects_report (qc d) (text r) (d :: ds))])
       (calls st ++
          [(MODEL_ID,
            json_dumps None
              (build_qc_request png_qc (instruction (vars st))
                 (default_system_prompt (vars st)) (Some png_ref)))])).
Proof.
  intros Ho Ht Hs Ho' Ht' Hs' Hcall Htruthy Htext Hloads Hr Hobjs Href Him.
  rewrite (run_qc_full_pipeline_loaded qc_path ref_path _ _ _ _ _ _ st Ho Ht Hs Ho' Ht' Hs').
  unfold bind at 1. rewrite invoke_qc_model_run. cbv zeta.
  cbn [calls]. rewrite Hcall.
  unfold bind at 1.
  rewrite (parse_qc_response_try _ _ Htruthy).
  rewrite (try_except_ok _ _ _ _
             (show (State (loaded (vars st) png_qc thumb_qc png_ref thumb_ref)
                      (shown st ++ preview_events qc_display thumb_qc
                         ++ preview_events ref_display thumb_ref
                         ++ [Print "✅ Inference completed successfully."])
                      (calls st ++
                         [(MODEL_ID,
                           json_dumps None
                             (build_qc_request png_qc (instruction (vars st))
                                (default_system_prompt (vars st)) (Some png_ref)))]))
                [Print "✅ Parsed QC Output:"; Print (json_dumps (Some 2) parsed)])
             parsed).
  - rewrite (display_qc_report_defects _ _ _ _ _ _ _ _ _ Hr Hobjs Href Him).
    unfold show. cbn [vars shown calls]. rewrite <- !app_assoc. reflexivity.
  - rewrite (bind_lift_ok _ _ _ _ Htext).
    rewrite (bind_lift_ok _ (strip raw_text) _ _ eq_refl).
    rewrite (bind_lift_ok _ _ _ _ Hloads).
    unfold print.
    rewrite (bind_run _ _ _ _ _ (emit_run _ _)), (bind_run _ _ _ _ _ (emit_run _ _)), show_show.
    unfold show. cbn [vars shown calls]. rewrite <- !app_assoc. reflexivity.
Qed.

(** A run whose remote call fails.  The pipeline does not stop at the line
    of the client: it goes on with [None] as the answer, shows the
    reference image, and ends with an [AttributeError] from
    [display_qc_report]; no report is printed. *)
Theorem run_qc_full_pipeline_after_failed_call (qc_path ref_path : string)
    (im_qc thumb_qc im_ref thumb_ref : image) (png_qc png_ref : bytes) (e : exn)
    (evs : list event) (st : state) :
  Image_open_file (qc_image_path (vars st)) = Ok im_qc ->
  Image_thumbnail im_qc default_max_size = Ok thumb_qc ->
  Image_save_png thumb_qc = Ok png_qc ->
  Image_open_file (ref_image_path (vars st)) = Ok im_ref ->
  Image_thumbnail im_ref default_max_size = Ok thumb_ref ->
  Image_save_png thumb_ref = Ok png_ref ->
  obind
    (invoke_model (calls st) MODEL_ID
       (json_dumps None
          (build_qc_request png_qc (instruction (vars st)) (default_system_prompt (vars st))
             (Some png_ref))))
    json_loads = Raise e ->
  reference_preview (Some (b64encode png_ref)) = Ok evs ->
  run_qc_full_pipeline qc_path ref_path st =
    (Raise (Exn AttributeError "'NoneType' object has no attribute 'get'"),
     State (loaded (vars st) png_qc thumb_qc png_ref thumb_ref)
       (shown st
          ++ preview_events qc_display thumb_qc
          ++ preview_events ref_display thumb_ref
          ++ [Print ("❌ Model invocation error: " ++ exn_str e)]
          ++ evs)
       (calls st ++
          [(MODEL_ID,
            json_dumps None
              (build_qc_request png_qc (instruction (vars st))
                 (default_system_prompt (vars st)) (Some png_ref)))])).
Proof.
  intros Ho Ht Hs Ho' Ht' Hs' Hcall Href.
  rewrite (run_qc_full_pipeline_loaded qc_path ref_path _ _ _ _ _ _ st Ho Ht Hs Ho' Ht' Hs').
  unfold bind at 1. rewrite invoke_qc_model_run. cbv zeta.
  cbn [calls]. rewrite Hcall.
  unfold bind at 1. unfold parse_qc_response. cbn [py_truthy negb]. unfold ret.
  rewrite (display_qc_report_none _ _ _ _ Href).
  unfold show. cbn [vars shown calls]. rewrite <- !app_assoc. reflexivity.
Qed.

(** A run whose reference file cannot be opened.  The subject image is
    already in the cache and in its widget when the exception of the
    loader leaves the pipeline: no request is built, no call is made and
    nothing else is shown. *)
Theorem run_qc_full_pipeline_stops_at_missing_reference (qc_path ref_path : string)
    (im_qc thumb_qc : image) (png_qc : bytes) (e : exn) (st : state) :
  Image_open_file (qc_image_path (vars st)) = Ok im_qc ->
  Image_thumbnail im_qc default_max_size = Ok thumb_qc ->
  Image_save_png thumb_qc = Ok png_qc ->
  Image_open_file (ref_image_path (vars st)) = Raise e ->
  run_qc_full_pipeline qc_path ref_path st =
    (Raise e,
     State (assign_qc (vars st) (b64encode png_qc) png_qc thumb_qc)
       (shown st ++ preview_events qc_display thumb_qc)
       (calls st)).
Proof.
  intros Ho Ht Hs Ho'. unfold run_qc_full_pipeline.
  rewrite (bind_run _ _ _ _ _ (load_qc_image_run _ _ _ st Ho Ht Hs)).
  apply bind_raise. unfold load_ref_image.
  rewrite (bind_run _ _ _ _ _ (get_vars_run _)).
  apply bind_raise. unfold get_png_base64_from_file.
  apply bind_lift_raise. exact Ho'.
Qed.

End Further.

(** ** Concrete runs *)

Lemma draw_box_color_witness :
  exists c : string,
    draw_box (L := Bench.libraries [] []) (int_truediv 1024 1000) (int_truediv 768 1000)
      (sample_defect "defect_1" "green" "ok" "white spots" (sample_box 195 475 285 595))
      sample_state =
      (Ok tt,
       State sample_globals
         [AddPatch
            (Rectangle (Z_to_float 195 * int_truediv 1024 1000,
                        Z_to_float 475 * int_truediv 768 1000)%float
               (Z_to_float 285 * int_truediv 1024 1000
                - Z_to_float 195 * int_truediv 1024 1000)%float
               (Z_to_float 595 * int_truediv 768 1000
                - Z_to_float 475 * int_truediv 768 1000)%float
               2 c "none");
          AxText
            (Label (Z_to_float 195 * int_truediv 1024 1000)%float
               (Z_to_float 475 * int_truediv 768 1000 - 10)%float
               "defect_1 (ok)" c 12 "bold")]
         [])
    /\ (c = "green" <-> PStr "ok" = PStr "OK")
    /\ (c = "red" <-> PStr "ok" <> PStr "OK").
Proof.
  exact (draw_box_color (L := Bench.libraries [] [])
           (int_truediv 1024 1000) (int_truediv 768 1000)
           (sample_defect "defect_1" "green" "ok" "white spots" (sample_box 195 475 285 595))
           (sample_box 195 475 285 595) (PStr "defect_1") (PStr "ok")
           _ _ _ _ sample_state
           eq_refl eq_refl eq_refl eq_refl eq_refl eq_refl eq_refl).
Defined.

Lemma access_denied_paths_witness :
  contains "AccessDeniedException" (exn_str access_denied) = true
  /\ check_model_enabled (L := Bench.libraries [] [Raise access_denied]) sample_state =
       (Ok tt,
        State sample_globals not_activated_hint
          [(MODEL_ID, Bench.write hello_request)])
  /\ invoke_qc_model (L := Bench.libraries [] [Raise access_denied])
       (build_qc_request [] "instruction" "system prompt" None) MODEL_ID sample_state =
       (Ok PNone,
        State sample_globals [Print ("❌ Model invocation error: " ++ exn_str access_denied)]
          [(MODEL_ID, Bench.write (build_qc_request [] "instruction" "system prompt" None))]).
Proof.
  pose proof (access_denied_paths (L := Bench.libraries [] [Raise access_denied])
                access_denied (build_qc_request [] "instruction" "system prompt" None)
                MODEL_ID sample_state eq_refl) as [Hcheck Hinvoke].
  split; [reflexivity |].
  split; [exact (Hcheck eq_refl) | exact (Hinvoke eq_refl)].
Defined.

(** C3, as stated, fails: on an exception whose text contains
    AccessDeniedException, [invoke_qc_model] prints the generic line only;
    neither line of the hint is shown. *)
Lemma invoke_qc_model_prints_no_hint :
  contains "AccessDeniedException" (exn_str access_denied) = true
  /\ invoke_model (Libraries := Bench.libraries [] [Raise access_denied]) []
       MODEL_ID (Bench.write (build_qc_request [] "instruction" "system prompt" None))
       = Raise access_denied
  /\ shown (snd (invoke_qc_model (L := Bench.libraries [] [Raise access_denied])
                   (build_qc_request [] "instruction" "system prompt" None)
                   MODEL_ID sample_state))
     = [Print ("❌ Model invocation error: " ++ exn_str access_denied)]
  /\ forall line, In line not_activated_hint ->
       ~ In line
           (shown (snd (invoke_qc_model (L := Bench.libraries [] [Raise access_denied])
                          (build_qc_request [] "instruction" "system prompt" None)
                          MODEL_ID sample_state))).
Proof.
  split; [reflexivity |]. split; [reflexivity |]. split; [reflexivity |].
  intros line Hline Hin.
  change (In line [Print ("❌ Model invocation error: " ++ exn_str access_denied)]) in Hin.
  destruct Hin as [<- | []].
  destruct Hline as [H | [H | []]]; discriminate H.
Qed.

Lemma report_verdict_is_first_defect_witness :
  exists (before : list event) (rest : string),
    display_qc_report (L := Bench.libraries [] []) two_defects sample_base64 None sample_state =
      (Ok tt,
       State (vars sample_state)
         (shown sample_state ++ before ++
            [Print (nl ++ "🧾 Quality Control Report:");
             Print ("QC: " ++ qc accepted_region ++ nl ++ rest)])
         (calls sample_state))
    /\ map rect_edgecolor (patches before) =
         map (fun x => qc_color (qc x)) [accepted_region; rejected_region]
    /\ (forall d2, [rejected_region] = [d2] ->
          (qc accepted_region = "OK" /\ qc d2 = "NOK" ->
           map rect_edgecolor (patches before) = ["green"; "red"])
          /\ (qc accepted_region = "NOK" /\ qc d2 = "OK" ->
              map rect_edgecolor (patches before) = ["red"; "green"])).
Proof.
  exact (report_verdict_is_first_defect (L := Bench.libraries [] [])
           two_defects two_defects_report accepted_region [rejected_region]
           sample_base64 sample_image None [] sample_state
           eq_refl eq_refl eq_refl eq_refl).
Defined.

Lemma empty_objects_plain_report_witness :
  display_qc_report (L := Bench.libraries [] []) no_defects sample_base64 None sample_state =
    (Ok tt,
     State (vars sample_state)
       (shown sample_state ++ [] ++
          [Print "🧾 QC Image:"; Display (Image "RGB" (512, 384) []);
           Print (nl ++ "🧾 Quality Control Report:");
           Print ("QC: OK" ++ nl ++ nl ++ "Description:" ++ nl
                    ++ text no_defects_report_sample ++ nl ++ nl
                    ++ "No defects were detected." ++ nl)])
       (calls sample_state))
  /\ patches
       ([] ++ [Print "🧾 QC Image:"; Display (Image "RGB" (512, 384) []);
               Print (nl ++ "🧾 Quality Control Report:");
               Print ("QC: OK" ++ nl ++ nl ++ "Description:" ++ nl
                        ++ text no_defects_report_sample ++ nl ++ nl
                        ++ "No defects were detected." ++ nl)]) = [].
Proof.
  exact (empty_objects_plain_report (L := Bench.libraries [] [])
           no_defects no_defects_report_sample sample_base64 sample_image
           (Image "RGB" (512, 384) []) None [] sample_state
           eq_refl eq_refl eq_refl eq_refl eq_refl).
Defined.

(** C2 at a failing input.  The model's answer lacks its closing brace.
    [parse_qc_response] reports the failure and returns [None], as the
    claim says; the pipeline then passes [None] to [display_qc_report],
    whose [parsed.get] raises [AttributeError], and nothing catches it. *)
Theorem malformed_answer_escapes_pipeline :
  exists (message : string) (st' : state),
    json_loads (Libraries := answering malformed_answer)
      (remove_all "```" (remove_all "```json" (strip malformed_answer)))
      = Raise (Exn JSONDecodeError message)
    /\ fst (parse_qc_response (L := answering malformed_answer)
              (response_with malformed_answer) sample_state) = Ok PNone
    /\ run_qc_full_pipeline (L := answering malformed_answer)
         "./sample-dataset/metalplate_nok2.jpg" "./sample-dataset/metalplate_reference.jpg"
         sample_state
       = (Raise (Exn AttributeError "'NoneType' object has no attribute 'get'"), st')
    /\ In (Print ("❌ Response parsing failed: " ++ message)) (shown st').
Proof.
  exists "Expecting value". eexists.
  split; [reflexivity |]. split; [reflexivity |].
  split; [vm_compute; reflexivity |].
  simpl. do 5 right. left. reflexivity.
Qed.

(** With a complete answer in a markdown fence the same run ends normally
    and its last print is the report. *)
Example fenced_answer_is_reported :
  exists st' : state,
    run_qc_full_pipeline
      (L := answering ("```json" ++ nl ++ Bench.write two_defects ++ nl ++ "```"))
      "./sample-dataset/metalplate_nok2.jpg" "./sample-dataset/metalplate_reference.jpg"
      sample_state = (Ok tt, st')
    /\ last (shown st') AxisOff =
         Print (defects_report (L := Bench.libraries [] []) "OK"
                  "A metal plate with two marked regions"
                  [accepted_region; rejected_region]).
Proof.
  eexists. split; [vm_compute; reflexivity |]. vm_compute. reflexivity.
Qed.


(** *** Cleaning and parsing *)

Lemma clean_json_plain_witness :
  clean_json ("  {}" ++ nl) = "{}".
Proof.
  exact (clean_json_plain ("  {}" ++ nl) eq_refl).
Defined.

Lemma clean_json_fenced_witness :
  clean_json ("```json" ++ nl ++ "{}" ++ nl ++ "```" ++ nl) = nl ++ "{}" ++ nl.
Proof.
  exact (clean_json_fenced ("```json" ++ nl ++ "{}" ++ nl ++ "```" ++ nl) (nl ++ "{}" ++ nl)
           (or_introl eq_refl) eq_refl).
Defined.

Lemma clean_json_has_no_fence_witness :
  contains "```" (clean_json fenced_answer) = false
  /\ clean_json fenced_answer <> strip fenced_answer.
Proof.
  destruct (clean_json_has_no_fence fenced_answer) as [Hclean Hchanged].
  split; [exact Hclean | exact (Hchanged eq_refl)].
Defined.

Lemma parse_qc_response_contains_its_errors_witness :
  exists e : exn,
    fst (parse_qc_response (L := Bench.libraries [] []) (PInt 1) sample_state) = Raise e
    /\ exn_class_of e = TypeError
    /\ exn_class_of e <> KeyError /\ exn_class_of e <> JSONDecodeError.
Proof.
  eexists. split; [reflexivity |]. split; [reflexivity |].
  exact (proj2 (parse_qc_response_contains_its_errors (L := Bench.libraries [] [])
                  (PInt 1) sample_state) _ eq_refl).
Defined.

Lemma parse_qc_response_decodes_witness :
  parse_qc_response (L := Bench.libraries [] []) (response_with fenced_answer) sample_state =
    (Ok two_defects,
     State sample_globals
       [Print "✅ Parsed QC Output:"; Print (Bench.write two_defects)] []).
Proof.
  exact (parse_qc_response_decodes (L := Bench.libraries [] [])
           (response_with fenced_answer) two_defects fenced_answer sample_state
           eq_refl eq_refl ltac:(vm_compute; reflexivity)).
Defined.

Lemma failed_call_is_reported_once_witness :
  (model_response <- invoke_qc_model (L := Bench.libraries [] [Raise access_denied])
                       hello_request MODEL_ID ;;
   parse_qc_response (L := Bench.libraries [] [Raise access_denied]) model_response)
    sample_state =
    (Ok PNone,
     State sample_globals
       [Print ("❌ Model invocation error: " ++ exn_str access_denied)]
       [(MODEL_ID, Bench.write hello_request)]).
Proof.
  exact (failed_call_is_reported_once (L := Bench.libraries [] [Raise access_denied])
           hello_request MODEL_ID access_denied sample_state eq_refl).
Defined.


(** *** Rendering *)

Lemma draw_box_rejects_non_numbers_witness :
  exists e : exn,
    draw_box (L := Bench.libraries [] []) (int_truediv 1024 1000) (int_truediv 768 1000)
      (sample_defect "defect_1" "green" "OK" "no visible damage" quoted_box) sample_state
      = (Raise e, sample_state)
    /\ (exn_class_of e = TypeError \/ exn_class_of e = OverflowError).
Proof.
  exact (draw_box_rejects_non_numbers (L := Bench.libraries [] [])
           (int_truediv 1024 1000) (int_truediv 768 1000)
           (sample_defect "defect_1" "green" "OK" "no visible damage" quoted_box)
           quoted_box (PStr "195") (PInt 475) (PInt 285) (PInt 595) sample_state
           eq_refl eq_refl eq_refl eq_refl eq_refl eq_refl).
Defined.

Lemma display_qc_report_stops_at_missing_box_witness :
  display_qc_report (L := Bench.libraries [] []) missing_box sample_base64 None sample_state =
    (Raise (Exn KeyError "'bounding_box'"),
     State sample_globals
       ([] ++ [] ++ [Print "🧾 QC Image with Defects:"; Subplots (10, 10); Imshow sample_image]
           ++ flat_map
                (defect_artists (scale_x sample_image)
                   (scale_y sample_image))
                [accepted_region])
       []).
Proof.
  exact (display_qc_report_stops_at_missing_box (L := Bench.libraries [] [])
           missing_box boxless_region
           [sample_defect "defect_1" "green" "OK" "no visible damage"
              (sample_box 195 475 285 595)]
           [] [accepted_region] sample_base64 sample_image None [] _ sample_state
           eq_refl eq_refl eq_refl eq_refl eq_refl).
Defined.

Lemma display_qc_report_without_objects_witness :
  display_qc_report (L := Bench.libraries [] []) null_objects sample_base64 None sample_state =
    (Ok tt,
     State sample_globals
       ([] ++ [] ++
          [Print "🧾 QC Image:"; Display (Image "RGB" (512, 384) []);
           Print (nl ++ "🧾 Quality Control Report:");
           Print ("QC: OK" ++ nl ++ nl ++ "Description:" ++ nl
                    ++ "The plate matches the reference"
                    ++ nl ++ nl ++ "No defects were detected." ++ nl)])
       []).
Proof.
  exact (display_qc_report_without_objects (L := Bench.libraries [] [])
           null_objects PNone (PStr "The plate matches the reference")
           sample_base64 sample_image (Image "RGB" (512, 384) []) None [] sample_state
           eq_refl eq_refl eq_refl eq_refl eq_refl eq_refl).
Defined.

Lemma display_qc_report_without_text_witness :
  display_qc_report (L := Bench.libraries [] []) missing_text sample_base64 None sample_state =
    (Raise (Exn KeyError "'text'"),
     State sample_globals
       ([] ++ [] ++ [Print "🧾 QC Image with Defects:"; Subplots (10, 10); Imshow sample_image]
           ++ flat_map
                (defect_artists (scale_x sample_image)
                   (scale_y sample_image))
                [accepted_region]
           ++ [AxisOff; Show])
       []).
Proof.
  exact (display_qc_report_without_text (L := Bench.libraries [] [])
           missing_text
           [sample_defect "defect_1" "green" "OK" "no visible damage"
              (sample_box 195 475 285 595)]
           accepted_region [] sample_base64 sample_image None [] _ sample_state
           eq_refl eq_refl eq_refl eq_refl eq_refl).
Defined.

Lemma display_qc_report_lists_every_defect_witness :
  exists before : list event,
    display_qc_report (L := Bench.libraries [] []) two_defects sample_base64 None sample_state =
      (Ok tt,
       State sample_globals
         ([] ++ before ++
            [Print ("QC: OK" ++ nl ++ nl ++ "Description:" ++ nl
                      ++ "A metal plate with two marked regions"
                      ++ nl ++ nl ++ "Defects:"
                      ++ String.concat ""
                           (map (defect_text (L := Bench.libraries [] []))
                              [accepted_region; rejected_region]))])
         []).
Proof.
  exact (display_qc_report_lists_every_defect (L := Bench.libraries [] [])
           two_defects two_defects_report accepted_region [rejected_region]
           sample_base64 sample_image None [] sample_state
           eq_refl eq_refl eq_refl eq_refl).
Defined.

Lemma display_qc_report_bad_reference_witness :
  display_qc_report (L := Bench.libraries [] []) two_defects sample_base64 (Some "!!!!")
    sample_state = (Raise Bench.bad_base64, sample_state).
Proof.
  exact (display_qc_report_bad_reference (L := Bench.libraries [] [])
           two_defects sample_base64 "!!!!" Bench.bad_base64 sample_state eq_refl).
Defined.

(** *** Loading *)

Lemma failed_load_keeps_the_cache_witness :
  load_qc_image (L := Bench.libraries [] []) cached_state =
    (Raise (Exn (OtherException "FileNotFoundError")
              "[Errno 2] No such file or directory: './sample-dataset/metalplate_nok2.jpg'"),
     cached_state).
Proof.
  exact (failed_load_keeps_the_cache (L := Bench.libraries [] []) _ cached_state
           (or_introl eq_refl)).
Defined.

Lemma load_qc_image_fills_the_cache_witness :
  exists st' : state,
    load_qc_image (L := Bench.libraries sample_files []) sample_state = (Ok tt, st')
    /\ img (vars st') = Some sample_image
    /\ image_data (vars st') = Some (Bench.encode_image sample_image)
    /\ base64_image (vars st') = Some sample_base64
    /\ ref_img (vars st') = None
    /\ reference_image_data (vars st') = None
    /\ base64_reference_image (vars st') = None
    /\ same_settings sample_globals (vars st')
    /\ shown st' = [ClearOutput qc_display;
                    WidgetDisplay qc_display (Image "RGB" (341, 256) [])]
    /\ calls st' = [].
Proof.
  exact (load_qc_image_fills_the_cache (L := Bench.libraries sample_files [])
           (Image "RGB" (2048, 1536) []) sample_image (Image "RGB" (341, 256) [])
           (Bench.encode_image sample_image) sample_state
           eq_refl eq_refl eq_refl eq_refl).
Defined.

Lemma failed_preview_does_not_stop_the_load_witness :
  load_qc_image (L := Bench.libraries tiny_files []) sample_state =
    (Ok tt,
     State
       (assign_qc sample_globals
          (b64encode (Bench.encode_image (Image "RGB" (2, 2) [])))
          (Bench.encode_image (Image "RGB" (2, 2) [])) (Image "RGB" (2, 2) []))
       [ClearOutput qc_display;
        WidgetTraceback qc_display
          (Exn (OtherException "ValueError") "height and width must be > 0")]
       []).
Proof.
  exact (failed_preview_does_not_stop_the_load (L := Bench.libraries tiny_files [])
           (Image "RGB" (2, 2) []) (Image "RGB" (2, 2) [])
           (Bench.encode_image (Image "RGB" (2, 2) [])) _ sample_state
           eq_refl eq_refl eq_refl eq_refl).
Defined.


(** *** Whole runs *)

Lemma run_qc_full_pipeline_reports_witness :
  exists st' : state,
    run_qc_full_pipeline (L := answering fenced_answer)
      "./sample-dataset/metalplate_nok2.jpg" "./sample-dataset/metalplate_reference.jpg"
      sample_state = (Ok tt, st')
    /\ firstn 7 (shown st') =
         [ClearOutput qc_display; WidgetDisplay qc_display (Image "RGB" (341, 256) []);
          ClearOutput ref_display; WidgetDisplay ref_display (Image "RGB" (341, 256) []);
          Print "✅ Inference completed successfully.";
          Print "✅ Parsed QC Output:";
          Print (Bench.write two_defects)]
    /\ map fst (calls st') = [MODEL_ID].
Proof.
  eexists. split; [| split].
  - apply (run_qc_full_pipeline_reports (L := answering fenced_answer)
             "./sample-dataset/metalplate_nok2.jpg" "./sample-dataset/metalplate_reference.jpg"
             (Image "RGB" (2048, 1536) []) sample_image
             (Image "RGB" (2048, 1536) []) sample_image sample_image
             (Bench.encode_image sample_image) (Bench.encode_image sample_image)
             (response_with fenced_answer) two_defects fenced_answer
             two_defects_report accepted_region [rejected_region] half_reference
             sample_state);
      vm_compute; reflexivity.
  - vm_compute. reflexivity.
  - reflexivity.
Defined.

Lemma run_qc_full_pipeline_after_failed_call_witness :
  exists st' : state,
    run_qc_full_pipeline (L := Bench.libraries sample_files [Raise access_denied])
      "./sample-dataset/metalplate_nok2.jpg" "./sample-dataset/metalplate_reference.jpg"
      sample_state
      = (Raise (Exn AttributeError "'NoneType' object has no attribute 'get'"), st')
    /\ skipn 4 (shown st') =
         (Print ("❌ Model invocation error: " ++ exn_str access_denied) :: half_reference)
    /\ map fst (calls st') = [MODEL_ID].
Proof.
  eexists. split; [| split].
  - apply (run_qc_full_pipeline_after_failed_call
             (L := Bench.libraries sample_files [Raise access_denied])
             "./sample-dataset/metalplate_nok2.jpg" "./sample-dataset/metalplate_reference.jpg"
             (Image "RGB" (2048, 1536) []) sample_image
             (Image "RGB" (2048, 1536) []) sample_image
             (Bench.encode_image sample_image) (Bench.encode_image sample_image)
             access_denied half_reference sample_state);
      vm_compute; reflexivity.
  - vm_compute. reflexivity.
  - reflexivity.
Defined.

Lemma run_qc_full_pipeline_stops_at_missing_reference_witness :
  run_qc_full_pipeline (L := Bench.libraries subject_only [])
    "./sample-dataset/metalplate_nok2.jpg" "./sample-dataset/metalplate_reference.jpg"
    sample_state =
    (Raise (Exn (OtherException "FileNotFoundError")
              "[Errno 2] No such file or directory: './sample-dataset/metalplate_reference.jpg'"),
     State
       (assign_qc sample_globals sample_base64 (Bench.encode_image sample_image) sample_image)
       [ClearOutput qc_display; WidgetDisplay qc_display (Image "RGB" (341, 256) [])]
       []).
Proof.
  exact (run_qc_full_pipeline_stops_at_missing_reference (L := Bench.libraries subject_only [])
           "./sample-dataset/metalplate_nok2.jpg" "./sample-dataset/metalplate_reference.jpg"
           (Image "RGB" (2048, 1536) []) sample_image (Bench.encode_image sample_image) _
           sample_state eq_refl eq_refl eq_refl eq_refl).
Defined.


(** *** Scaling *)


